(** * Infographics labelling service: the label repository and its views

    A shallow embedding of [backend/main.py] (the FastAPI handlers over
    the process-wide [lifespan_data]) and of the submission form of
    [frontend/app.py], followed by the properties of the repository.

    Conventions of the embedding.
    - A Python [str] is a [string]; characters are the code points 0..255.
    - A Python [dict] with string keys and string values is a
      [gmap string string]; a [set] of strings is a [gset string].
    - The two entries of [lifespan_data] are the two fields of [Store].
    - Integers are [Z] (Python integers are unbounded).
    - A handler is a function of the store that returns its outcome
      together with the store it leaves behind; a raised exception is the
      [inl] outcome, with the store as it was when the exception left the
      handler.
    - The records of the catalog carry the five fields of [Infographic];
      the code reads them with [info["category"]] and [info["title"]].
      The loader is given twice: over the documents of that format, and,
      in [Raw], over arbitrary JSON values, which it returns uninspected. *)

From Stdlib Require Import ZArith String Ascii List.
From stdpp Require Import gmap strings list fin_maps.

Local Open Scope string_scope.
Local Open Scope list_scope.
Local Open Scope Z_scope.

(** ** Python values used by the program *)

Module Py.

(** Truth value of a [str]: the empty string is false. *)
Definition truthy (s : string) : bool :=
  match s with
  | EmptyString => false
  | String _ _ => true
  end.

(** Truth value of an [Optional[str]], as in [if category:] and in
    [not qa.get("question")]: [None] and the empty string are false. *)
Definition truthy_opt (o : option string) : bool :=
  match o with
  | None => false
  | Some s => truthy s
  end.

(** [str.isspace] on one character, restricted to the code points below
    256: the ASCII white space 9..13, 28..31 and 32, and the two Latin-1
    white-space code points 133 and 160. *)
Definition isspace (a : ascii) : bool :=
  let n := N_of_ascii a in
  ((9 <=? n) && (n <=? 13) || (28 <=? n) && (n <=? 32)
   || (n =? 133) || (n =? 160))%N.

(** [str.lstrip()]: drop the leading white space. *)
Fixpoint lstrip (s : string) : string :=
  match s with
  | EmptyString => EmptyString
  | String a rest => if isspace a then lstrip rest else s
  end.

(** [str.rstrip()]: drop the trailing white space. *)
Fixpoint rstrip (s : string) : string :=
  match s with
  | EmptyString => EmptyString
  | String a rest =>
      match rstrip rest with
      | EmptyString => if isspace a then EmptyString else String a EmptyString
      | kept => String a kept
      end
  end.

(** [str.strip()] *)
Definition strip (s : string) : string := rstrip (lstrip s).

(** Every character of the string is white space. *)
Fixpoint all_space (s : string) : bool :=
  match s with
  | EmptyString => true
  | String a rest => isspace a && all_space rest
  end.

(** The exceptions the catalog loader can meet; all of them derive from
    Python's [Exception]. *)
Inductive Exception :=
| FileNotFoundError
| PermissionError
| UnicodeDecodeError
| JSONDecodeError
| KeyError (key : string)
| TypeError.

(** A computation that returns a value or raises. *)
Definition Result (A : Type) : Type := Exception + A.

(** [try: body  except Exception as e: handler e] *)
Definition try_except {A} (body : Result A) (handler : Exception → Result A)
  : Result A :=
  match body with
  | inl e => handler e
  | inr v => inr v
  end.

Definition bind {A B} (c : Result A) (k : A → Result B) : Result B :=
  match c with
  | inl e => inl e
  | inr v => k v
  end.

End Py.

(** ** Data model (the pydantic classes of [main.py]) *)

Definition datetime := Z.

(** A question/answer pair travels as a [Dict[str, str]]. *)
Abbreviation QADict := (gmap string string).

Record Infographic := mkInfographic {
  info_category : string;
  info_title : string;
  info_description : string;
  info_tags : list string;
  info_img_url : string
}.

Record Label := mkLabel {
  infographic_title : string;
  label_category : string;
  label_tags : list string;
  qa_pairs : list QADict;
  labeled_by : string;
  labeled_at : datetime
}.

(** [lifespan_data], once the application has started. *)
Record Store := mkStore {
  infographics : list Infographic;
  labels : list Label
}.

Record HTTPException := mkHTTPException {
  status_code : Z;
  detail : string
}.

(** What a handler can end with instead of a response: an [HTTPException]
    it raised itself, or any other exception that escaped it. *)
Inductive Failure :=
| Http (e : HTTPException)
| Uncaught (e : Py.Exception).

(** ** Handlers as store transformers *)

Definition Handler (A : Type) : Type := Store → (Failure + A) * Store.

Definition ret {A} (v : A) : Handler A := λ st, (inr v, st).

Definition raise {A} (f : Failure) : Handler A := λ st, (inl f, st).

Definition bind {A B} (c : Handler A) (k : A → Handler B) : Handler B :=
  λ st, match c st with
        | (inl f, st') => (inl f, st')
        | (inr v, st') => k v st'
        end.

Definition get_store : Handler Store := λ st, (inr st, st).

Definition put_store (st' : Store) : Handler unit := λ _, (inr tt, st').

(** A value computed outside the handler; an exception in it escapes. *)
Definition lift {A} (r : Py.Result A) : Handler A :=
  match r with
  | inl e => raise (Uncaught e)
  | inr v => ret v
  end.

Declare Scope handler_scope.
Delimit Scope handler_scope with handler.
Notation "'do' x <- c ; k" := (bind c (λ x, k))
  (at level 10, x name, c at level 100, k at level 200) : handler_scope.
Notation "c ;; k" := (bind c (λ _, k))
  (at level 100, k at level 200, right associativity) : handler_scope.

(** [for x in xs: body x] *)
Fixpoint for_each {A} (xs : list A) (body : A → Handler unit) : Handler unit :=
  match xs with
  | [] => ret tt
  | x :: rest => (body x ;; for_each rest body)%handler
  end.

(** [lifespan_data["infographics"].append(x)] *)
Definition append_infographic (x : Infographic) : Handler unit :=
  (do st <- get_store;
   put_store {| infographics := infographics st ++ [x]; labels := labels st |})%handler.

(** [lifespan_data["labels"].append(x)] *)
Definition append_label (x : Label) : Handler unit :=
  (do st <- get_store;
   put_store {| infographics := infographics st; labels := labels st ++ [x] |})%handler.

(** [lifespan_data["infographics"] = v] *)
Definition set_infographics (v : list Infographic) : Handler unit :=
  (do st <- get_store;
   put_store {| infographics := v; labels := labels st |})%handler.

(** [lifespan_data["labels"] = v] *)
Definition set_labels (v : list Label) : Handler unit :=
  (do st <- get_store;
   put_store {| infographics := infographics st; labels := v |})%handler.

(** ** The catalog source

    [load_data_from_json] opens [data/data.json], parses it and reads the
    member ["metadata"] of the parsed value.  What the loader finds on disk
    is an input of the model. *)

(** The value [json.load] returns.  Subscripting anything but an object
    with a string raises [TypeError]. *)
Inductive JsonDocument :=
| JsonObject (members : gmap string (list Infographic))
| JsonArray
| JsonScalar.

Inductive DataFile :=
| Missing                        (* [open] raises FileNotFoundError *)
| Unreadable                     (* [open] raises PermissionError *)
| NotText                        (* the bytes are not UTF-8 *)
| NotJson                        (* the text is not a JSON document *)
| Parsed (document : JsonDocument).

(** [with open(data_file, 'r', encoding='utf-8') as f: json.load(f)] *)
Definition open_and_parse (file : DataFile) : Py.Result JsonDocument :=
  match file with
  | Missing => inl Py.FileNotFoundError
  | Unreadable => inl Py.PermissionError
  | NotText => inl Py.UnicodeDecodeError
  | NotJson => inl Py.JSONDecodeError
  | Parsed document => inr document
  end.

(** [metadata[key]] *)
Definition getitem (metadata : JsonDocument) (key : string)
  : Py.Result (list Infographic) :=
  match metadata with
  | JsonObject members =>
      match members !! key with
      | Some v => inr v
      | None => inl (Py.KeyError key)
      end
  | JsonArray | JsonScalar => inl Py.TypeError
  end.

(** The body of the [try] of [load_data_from_json]. *)
Definition load_body (file : DataFile) : Py.Result (list Infographic) :=
  Py.bind (open_and_parse file) (λ metadata, getitem metadata "metadata").

(** [load_data_from_json]; the message the handler prints on the console
    is not part of the model. *)
Definition load_data_from_json (file : DataFile) : Py.Result (list Infographic) :=
  Py.try_except (load_body file) (λ e, inr []).

(** ** The handlers of [main.py] *)

Record Message := mkMessage { message : string }.

Record ReloadResponse := mkReloadResponse {
  reload_message : string;
  reload_infographics : list Infographic
}.

(** [get_infographics] *)
Definition get_infographics (category : option string) (st : Store)
  : list Infographic :=
  if Py.truthy_opt category then
    filter (λ info, Some (info_category info) = category) (infographics st)
  else infographics st.

(** [get_unlabeled_infographics] *)
Definition get_unlabeled_infographics (category : option string) (st : Store)
  : list Infographic :=
  let labeled_titles : gset string :=
    list_to_set (infographic_title <$> labels st) in
  let unlabeled :=
    filter (λ info, info_title info ∉ labeled_titles) (infographics st) in
  if Py.truthy_opt category then
    filter (λ info, Some (info_category info) = category) unlabeled
  else unlabeled.

(** [add_infographic] *)
Definition add_infographic (infographic : Infographic) : Handler Message :=
  (append_infographic infographic ;;
   ret {| message := "Infographic added successfully" |})%handler.

(** The test of the loop of [add_label]:
    [not qa.get("question") or not qa.get("answer")]. *)
Definition qa_incomplete (qa : QADict) : bool :=
  negb (Py.truthy_opt (qa !! "question")) || negb (Py.truthy_opt (qa !! "answer")).

(** [add_label] *)
Definition add_label (label : Label) : Handler Message :=
  (for_each (qa_pairs label) (λ qa,
     if qa_incomplete qa then
       raise (Http {| status_code := 400;
                      detail := "Each QA pair must have both question and answer" |})
     else ret tt) ;;
   append_label label ;;
   ret {| message := "Label submitted successfully" |})%handler.

(** [get_labels] *)
Definition get_labels (category : option string) (st : Store) : list Label :=
  if Py.truthy_opt category && negb (bool_decide (category = Some "All")) then
    filter (λ label, Some (label_category label) = category) (labels st)
  else labels st.

(** [get_categories], before the conversion of the set to a list. *)
Definition get_categories (st : Store) : gset string :=
  list_to_set (info_category <$> infographics st).

Record CategoryStats := mkCategoryStats {
  total : Z;
  labeled : Z;
  unlabeled : Z
}.

(** One turn of the loop of [get_category_stats]. *)
Definition category_entry (st : Store) (category : string) : CategoryStats :=
  let total :=
    Z.of_nat (length (filter (λ info, info_category info = category)
                             (infographics st))) in
  let labeled :=
    Z.of_nat (length (filter (λ label, label_category label = category)
                             (labels st))) in
  {| total := total; labeled := labeled; unlabeled := total - labeled |}.

(** [get_category_stats]; the loop visits the elements of the set of
    categories in the order the set yields them. *)
Definition get_category_stats (st : Store) : gmap string CategoryStats :=
  foldl (λ stats category, <[category := category_entry st category]> stats)
        ∅ (elements (get_categories st)).

(** The start-up half of [lifespan], before the [yield]. *)
Definition lifespan_startup (file : DataFile) : Handler unit :=
  (do loaded <- lift (load_data_from_json file);
   set_infographics loaded ;;
   set_labels [])%handler.

(** [reload_data] *)
Definition reload_data (file : DataFile) : Handler ReloadResponse :=
  (do loaded <- lift (load_data_from_json file);
   set_infographics loaded ;;
   set_labels [] ;;
   do st <- get_store;
   ret {| reload_message := "Data reloaded successfully";
          reload_infographics := infographics st |})%handler.

(** ** The submission form of [frontend/app.py]

    The form of [label_infographics] collects one dictionary
    [{"question": question, "answer": answer}] per pair of text inputs and,
    when "Submit Label" is pressed, keeps the pairs whose two fields are
    non-blank once trimmed. *)

Module Frontend.

(** The dictionary built from the two text inputs of one pair. *)
Record FormPair := mkFormPair {
  question : string;
  answer : string
}.

Definition to_dict (qa : FormPair) : QADict :=
  <["question" := question qa]> (<["answer" := answer qa]> ∅).

(** [qa["question"].strip() and qa["answer"].strip()] *)
Definition well_formed (qa : FormPair) : bool :=
  Py.truthy (Py.strip (question qa)) && Py.truthy (Py.strip (answer qa)).

(** [valid_qa_pairs] *)
Definition valid_qa_pairs (qa_pairs : list FormPair) : list FormPair :=
  filter (λ qa, well_formed qa = true) qa_pairs.

(** The [qa_pairs] entry of the [label_data] posted to [/labels]; [None]
    when the form shows its error and returns without posting. *)
Definition posted_qa_pairs (qa_pairs : list FormPair) : option (list QADict) :=
  match valid_qa_pairs qa_pairs with
  | [] => None
  | valid => Some (to_dict <$> valid)
  end.

End Frontend.

(** A submitted pair is blank when its question or its answer is absent or
    empty once trimmed. *)
Definition qa_blank (qa : QADict) : bool :=
  negb (Py.truthy_opt (Py.strip <$> qa !! "question"))
  || negb (Py.truthy_opt (Py.strip <$> qa !! "answer")).

(** ** Declarative readings of the views, to compare the handlers with *)

(** The response and the failure of [add_label]. *)
Definition label_submitted : Message :=
  {| message := "Label submitted successfully" |}.

Definition incomplete_qa_pair : Failure :=
  Http {| status_code := 400;
          detail := "Each QA pair must have both question and answer" |}.

(** The store once [label] has been appended to the labels. *)
Definition with_label (label : Label) (st : Store) : Store :=
  {| infographics := infographics st; labels := labels st ++ [label] |}.

(** A field of a submitted pair that is absent or the empty string. *)
Definition field_empty (qa : QADict) (key : string) : Prop :=
  qa !! key = None ∨ qa !! key = Some "".

(** The number of records of a list that a test keeps. *)
Definition count {A} (P : A → Prop) `{!∀ x, Decision (P x)} (l : list A) : Z :=
  Z.of_nat (length (filter P l)).

(** The response of [reload_data] for a catalog, and the store it leaves. *)
Definition reloaded (catalog : list Infographic) : ReloadResponse :=
  {| reload_message := "Data reloaded successfully";
     reload_infographics := catalog |}.

Definition restarted (catalog : list Infographic) : Store :=
  {| infographics := catalog; labels := [] |}.

(** No label refers to the item, and the item is of the category asked for,
    an empty category asking for nothing. *)
Definition wanted (category : option string) (st : Store) (info : Infographic)
  : Prop :=
  Forall (λ label, infographic_title label ≠ info_title info) (labels st)
  ∧ match category with
    | Some c => c = "" ∨ info_category info = c
    | None => True
    end.

#[global] Instance wanted_dec category st info : Decision (wanted category st info).
Proof.
  unfold wanted. apply and_dec; [apply _|].
  destruct category as [c|]; apply _.
Defined.

(** The item is of the category asked for, an absent or empty category
    asking for nothing. *)
Definition in_category (category : option string) (info : Infographic) : Prop :=
  match category with
  | Some c => c = "" ∨ info_category info = c
  | None => True
  end.

#[global] Instance in_category_dec category info : Decision (in_category category info).
Proof. destruct category as [c|]; apply _. Defined.

(** No label of the store refers to the item. *)
Definition not_labeled (st : Store) (info : Infographic) : Prop :=
  Forall (λ label, infographic_title label ≠ info_title info) (labels st).

#[global] Instance not_labeled_dec st info : Decision (not_labeled st info).
Proof. apply _. Defined.

(** The category argument of [get_labels] lets the label through: absent,
    empty and "All" let every label through. *)
Definition label_listed (category : option string) (label : Label) : Prop :=
  match category with
  | Some c => c = "" ∨ c = "All" ∨ label_category label = c
  | None => True
  end.

#[global] Instance label_listed_dec category label : Decision (label_listed category label).
Proof. destruct category as [c|]; apply _. Defined.

(** ** The catalog source, value by value

    [json.load] returns whatever the document holds, and
    [load_data_from_json] hands the member "metadata" over as it finds it.
    [Raw] is the loader over arbitrary JSON values; the loader above is
    this one on the documents whose "metadata" is a list of records with
    the five fields of [Infographic]. *)

Module Raw.

(** A value of [json.load]: [None], a [bool], an [int], a [float] (kept as
    its literal), a [str], a [list] or a [dict]. *)
#[warnings="-register-all"]
Inductive Json :=
| Null
| Bool (b : bool)
| Number (n : Z)
| Float (literal : string)
| Str (s : string)
| Array (items : list Json)
| Object (members : gmap string Json).

Inductive DataFile :=
| Missing                        (* [open] raises FileNotFoundError *)
| Unreadable                     (* [open] raises PermissionError *)
| NotText                        (* the bytes are not UTF-8 *)
| NotJson                        (* the text is not a JSON document *)
| Parsed (document : Json).

(** [with open(data_file, 'r', encoding='utf-8') as f: json.load(f)] *)
Definition open_and_parse (file : DataFile) : Py.Result Json :=
  match file with
  | Missing => inl Py.FileNotFoundError
  | Unreadable => inl Py.PermissionError
  | NotText => inl Py.UnicodeDecodeError
  | NotJson => inl Py.JSONDecodeError
  | Parsed document => inr document
  end.

(** [metadata[key]] with a string key: a [dict] looks the key up, a [list]
    and a [str] want an integer, the other values are not subscriptable. *)
Definition getitem (metadata : Json) (key : string) : Py.Result Json :=
  match metadata with
  | Object members =>
      match members !! key with
      | Some v => inr v
      | None => inl (Py.KeyError key)
      end
  | Null | Bool _ | Number _ | Float _ | Str _ | Array _ => inl Py.TypeError
  end.

(** The body of the [try] of [load_data_from_json]. *)
Definition load_body (file : DataFile) : Py.Result Json :=
  Py.bind (open_and_parse file) (λ metadata, getitem metadata "metadata").

(** [load_data_from_json]; the message the handler prints on the console
    is not part of the model. *)
Definition load_data_from_json (file : DataFile) : Py.Result Json :=
  Py.try_except (load_body file) (λ e, inr (Array [])).

(** The format of the catalog: an array of records with [category],
    [title], [description], [tags] and [img_url].  The following functions
    read a value in that format and write one; the program has neither. *)
Definition as_string (v : Json) : option string :=
  match v with
  | Str s => Some s
  | _ => None
  end.

Definition as_strings (v : Json) : option (list string) :=
  match v with
  | Array items => mapM as_string items
  | _ => None
  end.

Definition as_infographic (v : Json) : option Infographic :=
  match v with
  | Object members =>
      category ← members !! "category" ≫= as_string;
      title ← members !! "title" ≫= as_string;
      description ← members !! "description" ≫= as_string;
      tags ← members !! "tags" ≫= as_strings;
      img_url ← members !! "img_url" ≫= as_string;
      Some (mkInfographic category title description tags img_url)
  | _ => None
  end.

Definition as_catalog (v : Json) : option (list Infographic) :=
  match v with
  | Array items => mapM as_infographic items
  | _ => None
  end.

Definition of_infographic (info : Infographic) : Json :=
  Object (<["category" := Str (info_category info)]>
         (<["title" := Str (info_title info)]>
         (<["description" := Str (info_description info)]>
         (<["tags" := Array (Str <$> info_tags info)]>
         (<["img_url" := Str (info_img_url info)]> ∅))))).

Definition of_catalog (catalog : list Infographic) : Json :=
  Array (of_infographic <$> catalog).

End Raw.

(** A document of the typed loader, as a JSON value. *)
Definition raw_document (document : JsonDocument) : Raw.Json :=
  match document with
  | JsonObject members => Raw.Object (Raw.of_catalog <$> members)
  | JsonArray => Raw.Array []
  | JsonScalar => Raw.Null
  end.

Definition raw_file (file : DataFile) : Raw.DataFile :=
  match file with
  | Missing => Raw.Missing
  | Unreadable => Raw.Unreadable
  | NotText => Raw.NotText
  | NotJson => Raw.NotJson
  | Parsed document => Raw.Parsed (raw_document document)
  end.

(** ** The pages of [frontend/app.py]

    One run of the script is a function of the buttons pressed in the
    browser, of the values kept in [st.session_state] and of the store of
    the service, which the script reaches through its HTTP requests.  A
    button that was not pressed reads [false]. *)

Module Pages.

Definition newline : ascii := "010"%char.

(** ["\n" in s] *)
Fixpoint has_newline (s : string) : bool :=
  match s with
  | EmptyString => false
  | String a rest => Ascii.eqb a newline || has_newline rest
  end.

(** [s.split("\n")] *)
Fixpoint split_lines (s : string) : list string :=
  match s with
  | EmptyString => [EmptyString]
  | String a rest =>
      if Ascii.eqb a newline then EmptyString :: split_lines rest
      else match split_lines rest with
           | first :: others => String a first :: others
           | [] => [String a EmptyString]
           end
  end.

(** ["\n".join(lines)] *)
Fixpoint join_lines (lines : list string) : string :=
  match lines with
  | [] => EmptyString
  | line :: rest =>
      match rest with
      | [] => line
      | _ :: _ => String.append line (String newline (join_lines rest))
      end
  end.

(** The text the tags area starts with:
    ["\n".join(filter(None, current['tags']))]. *)
Definition tags_text (current : Infographic) : string :=
  join_lines (filter (λ tag, Py.truthy tag = true) (info_tags current)).

(** [[tag.strip() for tag in tags.split("\n") if tag.strip()]] *)
Definition posted_tags (tags : string) : list string :=
  Py.strip <$> filter (λ tag, Py.truthy (Py.strip tag) = true) (split_lines tags).

(** [l[i]] on a list: a negative index counts from the end, an index out of
    range raises [IndexError], here [None]. *)
Definition list_getitem {A} (l : list A) (i : Z) : option A :=
  let n := Z.of_nat (length l) in
  if bool_decide (0 ≤ i < n) then l !! Z.to_nat i
  else if bool_decide (- n ≤ i < 0) then l !! Z.to_nat (n + i)
  else None.

(** The two navigation buttons of [label_infographics], over a list of [n]
    items. *)
Definition navigate (previous next : bool) (n current_index : Z) : Z :=
  let current_index :=
    if previous && bool_decide (current_index > 0) then current_index - 1
    else current_index in
  if next && bool_decide (current_index < n - 1) then current_index + 1
  else current_index.

(** What a run of [label_infographics] ends on. *)
Inductive Screen :=
| AllLabeled
| Shows (current : Infographic)
| IndexError.

(** [label_infographics] up to the display of the current item, for the
    selected category; the result carries [st.session_state.current_index]
    as the run leaves it. *)
Definition label_infographics (previous next : bool) (category : string)
    (current_index : Z) (st : Store) : Screen * Z :=
  let infographics := get_unlabeled_infographics (Some category) st in
  match infographics with
  | [] => (AllLabeled, current_index)
  | _ :: _ =>
      let current_index :=
        navigate previous next (Z.of_nat (length infographics)) current_index in
      match list_getitem infographics current_index with
      | Some current => (Shows current, current_index)
      | None => (IndexError, current_index)
      end
  end.

(** [label_data] *)
Definition label_data (current : Infographic) (category tags : string)
    (valid_qa_pairs : list Frontend.FormPair) (now : datetime) : Label :=
  {| infographic_title := info_title current;
     label_category := category;
     label_tags := posted_tags tags;
     qa_pairs := Frontend.to_dict <$> valid_qa_pairs;
     labeled_by := "user";
     labeled_at := now |}.

(** What pressing "Submit Label" does. *)
Inductive Submission :=
| NothingSent                    (* "Please add at least one valid ..." *)
| Refused                        (* "Failed to submit label." *)
| Sent (rerun : bool).           (* "Label submitted successfully!" *)

(** The branch of "Submit Label", in a run that fetched [infographics] and
    shows [current]: the outcome, [current_index] and the store of the
    service afterwards. *)
Definition submit_label (infographics : list Infographic)
    (current : Infographic) (category tags : string)
    (qa_pairs : list Frontend.FormPair) (now : datetime)
    (current_index : Z) (st : Store) : Submission * Z * Store :=
  match Frontend.valid_qa_pairs qa_pairs with
  | [] => (NothingSent, current_index, st)
  | valid_qa_pairs =>
      match add_label (label_data current category tags valid_qa_pairs now) st with
      | (inr _, st') =>
          if bool_decide (current_index < Z.of_nat (length infographics) - 1)
          then (Sent true, current_index + 1, st')
          else (Sent false, current_index, st')
      | (inl _, st') => (Refused, current_index, st')
      end
  end.

(** The request of [view_labels]: no parameter when "All" is selected. *)
Definition view_labels (selected_category : string) (st : Store) : list Label :=
  get_labels
    (if bool_decide (selected_category ≠ "All") then Some selected_category
     else None) st.

(** [sum(...)] over a sequence of integers. *)
Definition sum (l : list Z) : Z := foldl Z.add 0 l.

(** The three figures of "Overall Progress" in [data_management]. *)
Definition total_images (stats : gmap string CategoryStats) : Z :=
  sum (total <$> (map_to_list stats).*2).

Definition total_labeled (stats : gmap string CategoryStats) : Z :=
  sum (labeled <$> (map_to_list stats).*2).

Definition remaining (stats : gmap string CategoryStats) : Z :=
  total_images stats - total_labeled stats.

(** The exceptions a run of [data_management] can end on. *)
Inductive PageError :=
| ZeroDivisionError
| StreamlitAPIException.

(** [st.progress(data['labeled'] / data['total'])]: the division raises on
    a zero [total], and [st.progress] raises on a quotient outside
    [0.0, 1.0].  The quotient of the two integers is compared exactly; the
    float Python computes compares the same for counts below 2 ^ 53. *)
Definition progress (data : CategoryStats) : PageError + unit :=
  if bool_decide (total data = 0) then inl ZeroDivisionError
  else if bool_decide (0 ≤ labeled data * total data ≤ total data * total data)
       then inr tt
       else inl StreamlitAPIException.

(** The loop of progress bars, [for category, data in stats.items()]. *)
Fixpoint progress_bars (entries : list (string * CategoryStats))
  : PageError + unit :=
  match entries with
  | [] => inr tt
  | (_, data) :: rest =>
      match progress data with
      | inl e => inl e
      | inr _ => progress_bars rest
      end
  end.

(** The three figures under "Overall Progress". *)
Record OverallProgress := mkOverallProgress {
  shown_total : Z;
  shown_labeled : Z;
  shown_remaining : Z
}.

(** [data_management]: the progress bars, then the three figures. *)
Definition data_management (stats : gmap string CategoryStats)
  : PageError + OverallProgress :=
  match progress_bars (map_to_list stats) with
  | inl e => inl e
  | inr _ =>
      inr {| shown_total := total_images stats;
             shown_labeled := total_labeled stats;
             shown_remaining := remaining stats |}
  end.

End Pages.

(** ** Sample data: two items under "Maps", one under "Charts" *)

Module Sample.

Definition item_A : Infographic := mkInfographic "Maps" "A" "first map" ["map"] "a.png".
Definition item_B : Infographic := mkInfographic "Maps" "B" "second map" [] "b.png".
Definition item_C : Infographic := mkInfographic "Charts" "C" "a chart" [""] "c.png".

Definition catalog : list Infographic := [item_A; item_B; item_C].

Definition fresh : Store := {| infographics := catalog; labels := [] |}.

Definition pair (q a : string) : QADict :=
  Frontend.to_dict {| Frontend.question := q; Frontend.answer := a |}.

Definition label_for (title category : string) (qas : list QADict) : Label :=
  mkLabel title category [] qas "user" 0.

(** A label with a well-formed pair, one without any pair, one whose
    question is a single space, one whose question is empty and one whose
    pair has no answer at all. *)
Definition label_A : Label := label_for "A" "Maps" [pair "q" "a"].
Definition label_space : Label := label_for "A" "Maps" [pair " " "x"].
Definition label_empty_question : Label :=
  label_for "A" "Maps" [pair "q" "a"; pair "" "x"].
Definition label_no_answer : Label :=
  label_for "A" "Maps" [{["question" := "q"]}].

(** A label that names no item of the catalog, and one filed under
    "Charts" for an item of "Maps". *)
Definition label_stray : Label := label_for "Z" "Maps" [pair "q" "a"].
Definition label_drift : Label := label_for "B" "Charts" [pair "q" "a"].
Definition label_C : Label := label_for "C" "Charts" [pair "q" "a"].

(** "Charts" has one item and receives two label records. *)
Definition overlabeled : Store :=
  {| infographics := catalog; labels := [label_drift; label_C] |}.

(** "A" is labeled twice. *)
Definition twice_A : Store :=
  {| infographics := catalog; labels := [label_A; label_A] |}.

Definition document : JsonDocument := JsonObject {["metadata" := catalog]}.
Definition document_without_metadata : JsonDocument :=
  JsonObject {["items" := catalog]}.

(** Documents out of the format: a record without most of its fields, and
    a number where the list is expected. *)
Definition record_with_title_only : Raw.Json :=
  Raw.Object {["title" := Raw.Str "A"]}.
Definition document_with_partial_record : Raw.Json :=
  Raw.Object {["metadata" := Raw.Array [Raw.of_infographic item_A;
                                         record_with_title_only]]}.
Definition document_with_number : Raw.Json :=
  Raw.Object {["metadata" := Raw.Number 5]}.

(** An item that shares its title with item A, and a store that holds a
    label for a title no item carries. *)
Definition item_Z : Infographic := mkInfographic "Maps" "Z" "late map" [] "z.png".
Definition with_stray : Store :=
  {| infographics := catalog; labels := [label_stray] |}.

End Sample.

(** * Properties *)

(** ** Python strings *)

Example strip_inner_space : Py.strip "  a b  " = "a b".
Proof. reflexivity. Qed.

Example strip_tab_newline : Py.strip (String "009" (String "010" " ")) = "".
Proof. reflexivity. Qed.

Lemma lstrip_all_space s : Py.all_space s = true → Py.lstrip s = "".
Proof.
  induction s as [|a s IH]; simpl; [done|].
  destruct (Py.isspace a); simpl; [exact IH | done].
Qed.

Lemma lstrip_empty_all_space s : Py.lstrip s = "" → Py.all_space s = true.
Proof.
  induction s as [|a s IH]; simpl; [done|].
  destruct (Py.isspace a); simpl; [exact IH | done].
Qed.

Lemma rstrip_empty_all_space s : Py.rstrip s = "" → Py.all_space s = true.
Proof.
  induction s as [|a s IH]; simpl; [done|].
  destruct (Py.rstrip s) eqn:Hr; [|done].
  destruct (Py.isspace a); simpl; [intros _; by apply IH | done].
Qed.

Lemma lstrip_head_not_space s a rest :
  Py.lstrip s = String a rest → Py.isspace a = false.
Proof.
  induction s as [|b s IH]; simpl; [done|].
  destruct (Py.isspace b) eqn:Hb; [exact IH|].
  intros [= <- <-]. exact Hb.
Qed.

(** A string trims to the empty string exactly when it is made of white
    space only. *)
Lemma strip_empty_iff s : Py.strip s = "" ↔ Py.all_space s = true.
Proof.
  unfold Py.strip. split.
  - intros H. apply rstrip_empty_all_space in H.
    destruct (Py.lstrip s) as [|a rest] eqn:Hl.
    + by apply lstrip_empty_all_space.
    + apply lstrip_head_not_space in Hl. simpl in H. by rewrite Hl in H.
  - intros H. by rewrite (lstrip_all_space _ H).
Qed.

Lemma truthy_false s : Py.truthy s = false ↔ s = "".
Proof. by destruct s. Qed.

Lemma truthy_strip s : Py.truthy (Py.strip s) = true → Py.truthy s = true.
Proof. by destruct s. Qed.

(** ** The handler monad *)

Lemma bind_ok {A B} (c : Handler A) (k : A → Handler B) st v st' :
  c st = (inr v, st') → bind c k st = k v st'.
Proof. unfold bind. by intros ->. Qed.

Lemma bind_failed {A B} (c : Handler A) (k : A → Handler B) st f st' :
  c st = (inl f, st') → bind c k st = (inl f, st').
Proof. unfold bind. by intros ->. Qed.

(** ** Submitting a label *)

Lemma qa_incomplete_spec qa :
  qa_incomplete qa = true ↔ field_empty qa "question" ∨ field_empty qa "answer".
Proof.
  unfold qa_incomplete, field_empty.
  rewrite orb_true_iff, !negb_true_iff.
  destruct (qa !! "question") as [[|? ?]|], (qa !! "answer") as [[|? ?]|];
    simpl; intuition (discriminate || auto).
Qed.

(** The loop of [add_label] stops at the first incomplete pair and touches
    nothing. *)
Lemma check_loop qas st :
  for_each qas (λ qa, if qa_incomplete qa then raise incomplete_qa_pair
                      else ret tt) st
  = if existsb qa_incomplete qas then (inl incomplete_qa_pair, st)
    else (inr tt, st).
Proof.
  induction qas as [|qa qas IH]; simpl; [done|].
  unfold bind. destruct (qa_incomplete qa); simpl; [done | exact IH].
Qed.

Lemma add_label_unfold label st :
  add_label label st
  = if existsb qa_incomplete (qa_pairs label)
    then (inl incomplete_qa_pair, st)
    else (inr label_submitted, with_label label st).
Proof.
  unfold add_label.
  change (Http _) with incomplete_qa_pair.
  unfold bind at 1. rewrite check_loop.
  destruct (existsb qa_incomplete (qa_pairs label)); reflexivity.
Qed.

Lemma add_label_accepted label st m st' :
  add_label label st = (inr m, st') →
  existsb qa_incomplete (qa_pairs label) = false ∧ st' = with_label label st.
Proof.
  rewrite add_label_unfold.
  destruct (existsb _ _); [done|]. by intros [= <- <-].
Qed.

Lemma qa_blank_incomplete qa : qa_blank qa = false → qa_incomplete qa = false.
Proof.
  unfold qa_blank, qa_incomplete.
  rewrite !orb_false_iff, !negb_false_iff.
  destruct (qa !! "question") as [q|], (qa !! "answer") as [a|]; simpl;
    try (intros [? ?]; discriminate).
  intros [Hq Ha]. by rewrite (truthy_strip _ Hq), (truthy_strip _ Ha).
Qed.

(** What the form posts is never empty and holds no blank pair. *)
Lemma posted_qa_pairs_valid form qas :
  Frontend.posted_qa_pairs form = Some qas →
  qas ≠ [] ∧ Forall (λ qa, qa_blank qa = false) qas.
Proof.
  unfold Frontend.posted_qa_pairs, Frontend.valid_qa_pairs.
  destruct (filter _ form) as [|qa valid] eqn:Hv; [done|].
  intros [= <-]. split; [done|].
  change (Forall (λ qa, qa_blank qa = false) (Frontend.to_dict <$> qa :: valid)).
  rewrite <- Hv. apply Forall_fmap, Forall_forall. intros x Hx.
  apply list_elem_of_filter in Hx as [Hx _].
  unfold Frontend.well_formed in Hx. apply andb_true_iff in Hx as [Hq Ha].
  unfold qa_blank, Frontend.to_dict; simpl.
  rewrite lookup_insert_eq, lookup_insert_ne, lookup_insert_eq by done.
  simpl. by rewrite Hq, Ha.
Qed.




(** C2, as the code has it: [add_label] fails with status 400, and stores
    nothing, as soon as one pair has its question or its answer absent or
    equal to the empty string; no trimming is applied.  Otherwise the
    submission succeeds and the label is appended; in particular it succeeds
    when both fields of every pair are non-blank once trimmed. *)
Theorem add_label_rejects_empty_fields label st :
  (Exists (λ qa, field_empty qa "question" ∨ field_empty qa "answer")
          (qa_pairs label) →
   add_label label st = (inl incomplete_qa_pair, st))
  ∧ (Forall (λ qa, ¬ field_empty qa "question" ∧ ¬ field_empty qa "answer")
            (qa_pairs label) →
     add_label label st = (inr label_submitted, with_label label st))
  ∧ (Forall (λ qa, qa_blank qa = false) (qa_pairs label) →
     add_label label st = (inr label_submitted, with_label label st)).
Proof.
  rewrite add_label_unfold. repeat split.
  - intros Hex. apply Exists_exists in Hex as (qa & Hin & Hqa).
    apply qa_incomplete_spec in Hqa.
    assert (existsb qa_incomplete (qa_pairs label) = true) as ->; [|done].
    apply existsb_exists. exists qa. split; [|done].
    by apply list_elem_of_In.
  - intros Hall.
    destruct (existsb qa_incomplete (qa_pairs label)) eqn:Hex; [|done].
    apply existsb_exists in Hex as (qa & Hin & Hqa).
    apply list_elem_of_In in Hin. rewrite Forall_forall in Hall.
    apply qa_incomplete_spec in Hqa. destruct (Hall qa Hin). tauto.
  - intros Hall.
    destruct (existsb qa_incomplete (qa_pairs label)) eqn:Hex; [|done].
    apply existsb_exists in Hex as (qa & Hin & Hqa).
    apply list_elem_of_In in Hin. rewrite Forall_forall in Hall.
    by rewrite (qa_blank_incomplete qa (Hall qa Hin)) in Hqa.
Qed.

Lemma add_label_rejects_empty_fields_witness :
  add_label Sample.label_empty_question Sample.fresh
  = (inl incomplete_qa_pair, Sample.fresh)
  ∧ add_label Sample.label_no_answer Sample.fresh
    = (inl incomplete_qa_pair, Sample.fresh)
  ∧ add_label Sample.label_space Sample.fresh
    = (inr label_submitted, with_label Sample.label_space Sample.fresh)
  ∧ add_label Sample.label_A Sample.fresh
    = (inr label_submitted, with_label Sample.label_A Sample.fresh).
Proof.
  split; [|split; [|split]].
  - apply (proj1 (add_label_rejects_empty_fields
                    Sample.label_empty_question Sample.fresh)).
    apply Exists_cons_tl, Exists_cons_hd. left. right. reflexivity.
  - apply (proj1 (add_label_rejects_empty_fields
                    Sample.label_no_answer Sample.fresh)).
    apply Exists_cons_hd. right. left. reflexivity.
  - apply (proj1 (proj2 (add_label_rejects_empty_fields
                           Sample.label_space Sample.fresh))).
    apply Forall_cons. split; [|constructor].
    split; intros [H|H]; vm_compute in H; discriminate H.
  - apply (proj2 (proj2 (add_label_rejects_empty_fields
                           Sample.label_A Sample.fresh))).
    apply Forall_cons. split; [reflexivity | constructor].
Defined.

(** C2 fails as stated: a question of one space is blank once trimmed, and
    the label that carries it is accepted and stored. *)
Lemma blank_question_is_accepted :
  Py.strip " " = ""
  ∧ qa_pairs Sample.label_space = [Sample.pair " " "x"]
  ∧ add_label Sample.label_space Sample.fresh
    = (inr label_submitted,
       {| infographics := Sample.catalog; labels := [Sample.label_space] |}).
Proof. repeat split; vm_compute; reflexivity. Qed.

(** Whatever the form posts passes the check of [add_label]. *)
Lemma posted_label_is_accepted form qas label st :
  Frontend.posted_qa_pairs form = Some qas →
  qa_pairs label = qas →
  add_label label st = (inr label_submitted, with_label label st).
Proof.
  intros [_ Hall]%posted_qa_pairs_valid <-.
  rewrite add_label_unfold.
  destruct (existsb qa_incomplete (qa_pairs label)) eqn:Hex; [|done].
  apply existsb_exists in Hex as (qa & Hin & Hqa).
  apply list_elem_of_In in Hin. rewrite Forall_forall in Hall.
  by rewrite (qa_blank_incomplete qa (Hall qa Hin)) in Hqa.
Qed.

(** The form drops the blank pairs and posts the others; it posts nothing
    when no pair is left. *)
Example form_drops_blank_pairs :
  Frontend.posted_qa_pairs
    [Frontend.mkFormPair " " "x"; Frontend.mkFormPair "q" "a"]
  = Some [Sample.pair "q" "a"]
  ∧ Frontend.posted_qa_pairs [Frontend.mkFormPair " " "x"] = None.
Proof. split; vm_compute; reflexivity. Qed.

(** C6: when [add_label] fails, it fails with the status 400 of the
    incomplete pair, and the catalog and the label store are what they were
    before the call. *)
Theorem add_label_failure_changes_nothing label st f st' :
  add_label label st = (inl f, st') →
  st' = st ∧ f = incomplete_qa_pair.
Proof.
  rewrite add_label_unfold.
  destruct (existsb qa_incomplete (qa_pairs label)); [|done].
  by intros [= <- <-].
Qed.

Lemma add_label_failure_changes_nothing_witness :
  add_label Sample.label_empty_question (with_label Sample.label_A Sample.fresh)
  = (inl incomplete_qa_pair, with_label Sample.label_A Sample.fresh)
  ∧ with_label Sample.label_A Sample.fresh = with_label Sample.label_A Sample.fresh
  ∧ incomplete_qa_pair = incomplete_qa_pair.
Proof.
  split; [vm_compute; reflexivity|].
  apply (add_label_failure_changes_nothing Sample.label_empty_question
           (with_label Sample.label_A Sample.fresh)).
  vm_compute; reflexivity.
Defined.

(** C10: a successful [add_label] leaves the catalog as it was and only
    appends to the labels; [add_infographic] always succeeds, leaves the
    labels as they were and only appends to the catalog. *)
Theorem mutations_touch_their_own_collection label infographic st :
  (∀ m st', add_label label st = (inr m, st') →
            infographics st' = infographics st
            ∧ labels st' = labels st ++ [label])
  ∧ (add_infographic infographic st).1
    = inr {| message := "Infographic added successfully" |}
  ∧ labels (add_infographic infographic st).2 = labels st
  ∧ infographics (add_infographic infographic st).2
    = infographics st ++ [infographic].
Proof.
  split; [|done].
  intros m st' Hok. apply add_label_accepted in Hok as [_ ->]. done.
Qed.

Lemma mutations_touch_their_own_collection_witness :
  add_label Sample.label_A Sample.fresh
  = (inr label_submitted, with_label Sample.label_A Sample.fresh)
  ∧ (infographics (with_label Sample.label_A Sample.fresh)
     = infographics Sample.fresh
     ∧ labels (with_label Sample.label_A Sample.fresh)
       = labels Sample.fresh ++ [Sample.label_A])
  ∧ labels (add_infographic Sample.item_C (with_label Sample.label_A Sample.fresh)).2
    = labels (with_label Sample.label_A Sample.fresh).
Proof.
  split; [vm_compute; reflexivity|]. split.
  - apply (proj1 (mutations_touch_their_own_collection
                    Sample.label_A Sample.item_C Sample.fresh)
             label_submitted).
    vm_compute; reflexivity.
  - apply (mutations_touch_their_own_collection
             Sample.label_A Sample.item_C
             (with_label Sample.label_A Sample.fresh)).
Defined.

(** ** The unlabeled view *)

Lemma filter_all {A} (P : A → Prop) `{!∀ x, Decision (P x)} (l : list A) :
  (∀ x, P x) → filter P l = l.
Proof.
  intros HP. induction l as [|x l IH]; [done|].
  by rewrite filter_cons_True, IH.
Qed.

(** The set of labeled titles holds the title of an item exactly when some
    label refers to it. *)
Lemma not_labeled_iff (ls : list Label) (t : string) :
  t ∉ (list_to_set (infographic_title <$> ls) : gset string)
  ↔ Forall (λ label, infographic_title label ≠ t) ls.
Proof.
  rewrite not_elem_of_list_to_set, Forall_forall. split.
  - intros Hnot label Hin Heq. apply Hnot.
    apply list_elem_of_fmap. by exists label.
  - intros Hall (label & -> & Hin)%list_elem_of_fmap. by apply (Hall label).
Qed.

(** The two comprehensions of [get_unlabeled_infographics] amount to one
    filter of the catalog. *)
Lemma get_unlabeled_infographics_filter category st :
  get_unlabeled_infographics category st
  = filter (wanted category st) (infographics st).
Proof.
  unfold get_unlabeled_infographics.
  destruct category as [[|a c]|]; simpl.
  - apply list_filter_iff. intros info. unfold wanted.
    rewrite not_labeled_iff. intuition.
  - rewrite list_filter_filter. apply list_filter_iff. intros info.
    unfold wanted. rewrite not_labeled_iff. split.
    + intros [[= Hc] Hno]. auto.
    + intros [Hno [Hc|Hc]]; [done|]. by rewrite Hc.
  - apply list_filter_iff. intros info. unfold wanted.
    rewrite not_labeled_iff. intuition.
Qed.

(** C3, as the code has it: the unlabeled view is the catalog, in its
    order, filtered down to the items no label refers to and, when the
    category argument is a non-empty string, to the items of that category;
    an empty category argument restricts nothing, like an absent one. *)
Theorem get_unlabeled_infographics_spec category st :
  get_unlabeled_infographics category st
  = filter (wanted category st) (infographics st)
  ∧ (∀ info, info ∈ get_unlabeled_infographics category st
             ↔ info ∈ infographics st
               ∧ (∀ label, label ∈ labels st →
                           infographic_title label ≠ info_title info)
               ∧ (∀ c, category = Some c → c ≠ "" → info_category info = c))
  ∧ get_unlabeled_infographics category st `sublist_of` infographics st.
Proof.
  rewrite get_unlabeled_infographics_filter. split; [done|]. split.
  - intros info. rewrite list_elem_of_filter. unfold wanted.
    rewrite Forall_forall. split.
    + intros [[Hno Hcat] Hin]. repeat split; [done..|].
      intros c -> Hc. by destruct Hcat.
    + intros (Hin & Hno & Hcat). repeat split; [done| |done].
      destruct category as [c|]; [|done].
      destruct (decide (c = "")); [by left | right; by apply Hcat].
  - apply sublist_filter.
Qed.

(** C3 fails as stated: with the empty string as category argument the
    view is not restricted to the items of that category, of which the
    catalog has none. *)
Lemma empty_category_restricts_nothing :
  get_unlabeled_infographics (Some "") Sample.fresh = Sample.catalog
  ∧ filter (λ info, info_category info = "") Sample.catalog = [].
Proof. split; vm_compute; reflexivity. Qed.

Example unlabeled_maps_fresh :
  get_unlabeled_infographics (Some "Maps") Sample.fresh
  = [Sample.item_A; Sample.item_B].
Proof. vm_compute; reflexivity. Qed.

Example unlabeled_maps_after_label_A :
  get_unlabeled_infographics (Some "Maps") (with_label Sample.label_A Sample.fresh)
  = [Sample.item_B].
Proof. vm_compute; reflexivity. Qed.

(** Appending a label removes from the view the items it names, and
    nothing else. *)
Lemma get_unlabeled_infographics_with_label category label st :
  get_unlabeled_infographics category (with_label label st)
  = filter (λ info, info_title info ≠ infographic_title label)
           (get_unlabeled_infographics category st).
Proof.
  rewrite !get_unlabeled_infographics_filter, list_filter_filter. simpl.
  apply list_filter_iff. intros info. unfold wanted; simpl.
  rewrite Forall_app, Forall_singleton. intuition.
Qed.

(** C7: once [add_label] has accepted a label, the unlabeled view, for any
    category argument, is a subsequence of what it was before: every item of
    the view after the submission was in the view before it. *)
Theorem add_label_never_unlabels label st m st' category :
  add_label label st = (inr m, st') →
  get_unlabeled_infographics category st'
    `sublist_of` get_unlabeled_infographics category st
  ∧ ∀ info, info ∈ get_unlabeled_infographics category st' →
            info ∈ get_unlabeled_infographics category st.
Proof.
  intros Hok. apply add_label_accepted in Hok as [_ ->].
  rewrite get_unlabeled_infographics_with_label. split.
  - apply sublist_filter.
  - intros info Hin. by apply list_elem_of_filter in Hin as [_ Hin].
Qed.

Lemma add_label_never_unlabels_witness :
  add_label Sample.label_A Sample.fresh
  = (inr label_submitted, with_label Sample.label_A Sample.fresh)
  ∧ get_unlabeled_infographics None (with_label Sample.label_A Sample.fresh)
    = [Sample.item_B; Sample.item_C]
  ∧ get_unlabeled_infographics None (with_label Sample.label_A Sample.fresh)
      `sublist_of` get_unlabeled_infographics None Sample.fresh.
Proof.
  split; [vm_compute; reflexivity|]. split; [vm_compute; reflexivity|].
  apply (add_label_never_unlabels Sample.label_A Sample.fresh label_submitted
           (with_label Sample.label_A Sample.fresh) None).
  vm_compute; reflexivity.
Defined.

(** ** Statistics by category *)

Lemma elem_of_get_categories st c :
  c ∈ get_categories st ↔ ∃ info, info ∈ infographics st ∧ info_category info = c.
Proof.
  unfold get_categories. rewrite elem_of_list_to_set, list_elem_of_fmap.
  split; intros (info & ? & ?); exists info; done.
Qed.

(** The loop of [get_category_stats] over any sequence of keys: a key that
    was visited holds its entry, any other key is as it was. *)
Lemma stats_loop_lookup {V} (entry : string → V) (keys : list string)
      (stats : gmap string V) (c : string) :
  foldl (λ stats category, <[category := entry category]> stats) stats keys !! c
  = if decide (c ∈ keys) then Some (entry c) else stats !! c.
Proof.
  revert stats. induction keys as [|k keys IH]; intros stats; cbn [foldl].
  - rewrite decide_False; [done | apply not_elem_of_nil].
  - rewrite IH. destruct (decide (c ∈ keys)) as [Hin|Hnot].
    + rewrite decide_True; [done | by apply elem_of_cons; right].
    + destruct (decide (k = c)) as [->|Hne].
      * rewrite lookup_insert_eq, decide_True; [done | by apply elem_of_cons; left].
      * rewrite lookup_insert_ne by done.
        rewrite decide_False; [done|].
        intros [->|?]%elem_of_cons; done.
Qed.

Lemma get_category_stats_lookup st c :
  get_category_stats st !! c
  = if decide (c ∈ get_categories st) then Some (category_entry st c) else None.
Proof.
  unfold get_category_stats. rewrite stats_loop_lookup, lookup_empty.
  apply decide_ext, elem_of_elements.
Qed.

(** A category no item of the catalog carries has no entry, whatever the
    labels say. *)
Lemma get_category_stats_absent st c :
  (∀ info, info ∈ infographics st → info_category info ≠ c) →
  get_category_stats st !! c = None.
Proof.
  intros Hno. rewrite get_category_stats_lookup, decide_False; [done|].
  intros (info & Hin & Hc)%elem_of_get_categories. by apply (Hno info).
Qed.

Lemma get_category_stats_present st c :
  (∃ info, info ∈ infographics st ∧ info_category info = c) →
  get_category_stats st !! c = Some (category_entry st c).
Proof.
  intros Hc. rewrite get_category_stats_lookup, decide_True; [done|].
  by apply elem_of_get_categories.
Qed.

(** Every accepted label adds one to the count of its category, whichever
    item it names. *)
Lemma labeled_counts_records label st c :
  label_category label = c →
  labeled (category_entry (with_label label st) c)
  = labeled (category_entry st c) + 1.
Proof.
  intros Hc. unfold category_entry; simpl.
  rewrite filter_app, length_app, filter_cons_True by done. simpl. lia.
Qed.

(** C4: for a category [c] of the catalog, the entry of [c] in the
    statistics exists, its [total] is the number of items of category [c] and
    its [labeled] is the number of label records whose category is [c]. *)
Theorem category_stats_counts st c :
  (∃ info, info ∈ infographics st ∧ info_category info = c) →
  ∃ stats,
    get_category_stats st !! c = Some stats
    ∧ total stats = count (λ info, info_category info = c) (infographics st)
    ∧ labeled stats = count (λ label, label_category label = c) (labels st).
Proof.
  intros Hc. exists (category_entry st c).
  split; [by apply get_category_stats_present | done].
Qed.

Lemma category_stats_counts_witness :
  (∃ info, info ∈ infographics Sample.twice_A ∧ info_category info = "Maps")
  ∧ ∃ stats,
      get_category_stats Sample.twice_A !! "Maps" = Some stats
      ∧ total stats = 2
      ∧ labeled stats = 2.
Proof.
  assert (∃ info, info ∈ infographics Sample.twice_A ∧ info_category info = "Maps")
    as Hc.
  { exists Sample.item_A. split; [apply list_elem_of_here | reflexivity]. }
  split; [exact Hc|].
  destruct (category_stats_counts Sample.twice_A "Maps" Hc)
    as (stats & Hlookup & Htotal & Hlabeled).
  exists stats. split; [exact Hlookup|].
  split; [exact Htotal | exact Hlabeled].
Defined.

Example stats_maps_after_label_A :
  get_category_stats (with_label Sample.label_A Sample.fresh) !! "Maps"
  = Some {| total := 2; labeled := 1; unlabeled := 1 |}.
Proof. vm_compute; reflexivity. Qed.

Example stats_maps_twice_A :
  get_category_stats Sample.twice_A !! "Maps"
  = Some {| total := 2; labeled := 2; unlabeled := 0 |}
  ∧ get_unlabeled_infographics (Some "Maps") Sample.twice_A = [Sample.item_B].
Proof. split; vm_compute; reflexivity. Qed.

(** C5: for a category [c] of the catalog, [unlabeled] is the integer
    difference of the number of items of category [c] and the number of
    label records of category [c]; it is negative as soon as the records
    outnumber the items. *)
Theorem category_stats_unlabeled_exact st c :
  (∃ info, info ∈ infographics st ∧ info_category info = c) →
  ∃ stats,
    get_category_stats st !! c = Some stats
    ∧ unlabeled stats = total stats - labeled stats
    ∧ unlabeled stats
      = count (λ info, info_category info = c) (infographics st)
        - count (λ label, label_category label = c) (labels st)
    ∧ (count (λ info, info_category info = c) (infographics st)
       < count (λ label, label_category label = c) (labels st) →
       unlabeled stats < 0).
Proof.
  intros Hc. exists (category_entry st c).
  split; [by apply get_category_stats_present|].
  unfold category_entry, count; simpl. repeat split. lia.
Qed.

Lemma category_stats_unlabeled_exact_witness :
  (∃ info, info ∈ infographics Sample.overlabeled ∧ info_category info = "Charts")
  ∧ get_category_stats Sample.overlabeled !! "Charts"
    = Some {| total := 1; labeled := 2; unlabeled := -1 |}
  ∧ ∃ stats,
      get_category_stats Sample.overlabeled !! "Charts" = Some stats
      ∧ unlabeled stats = total stats - labeled stats.
Proof.
  assert (∃ info, info ∈ infographics Sample.overlabeled
                  ∧ info_category info = "Charts") as Hc.
  { exists Sample.item_C. split; [|reflexivity].
    apply list_elem_of_further, list_elem_of_further, list_elem_of_here. }
  split; [exact Hc|]. split; [vm_compute; reflexivity|].
  destruct (category_stats_unlabeled_exact Sample.overlabeled "Charts" Hc)
    as (stats & Hlookup & Hdiff & _).
  exists stats. split; [exact Hlookup | exact Hdiff].
Defined.

(** ** Loading and reloading the catalog *)

(** The body of the [try] succeeds exactly on a parsed object that has a
    member "metadata". *)
Lemma load_body_ok_iff file catalog :
  load_body file = inr catalog
  ↔ ∃ members, file = Parsed (JsonObject members)
               ∧ members !! "metadata" = Some catalog.
Proof.
  unfold load_body. split.
  - destruct file as [| | | |[members| |]]; simpl; try done.
    destruct (members !! "metadata") as [v|] eqn:Hm; [|done].
    intros [= <-]. by exists members.
  - intros (members & -> & Hm). simpl. by rewrite Hm.
Qed.

Lemma load_data_from_json_ok file catalog :
  load_body file = inr catalog → load_data_from_json file = inr catalog.
Proof. unfold load_data_from_json. by intros ->. Qed.

Lemma load_data_from_json_failed file e :
  load_body file = inl e → load_data_from_json file = inr [].
Proof. unfold load_data_from_json. by intros ->. Qed.

(** The loader never raises. *)
Lemma load_data_from_json_total file :
  ∃ catalog, load_data_from_json file = inr catalog.
Proof.
  destruct (load_body file) as [e|catalog] eqn:Hbody.
  - exists []. by apply (load_data_from_json_failed file e).
  - exists catalog. by apply load_data_from_json_ok.
Qed.

Lemma reload_data_unfold file st catalog :
  load_data_from_json file = inr catalog →
  reload_data file st = (inr (reloaded catalog), restarted catalog).
Proof. unfold reload_data. intros ->. reflexivity. Qed.



Example reload_after_labels :
  reload_data (Parsed Sample.document) Sample.twice_A
  = (inr (reloaded Sample.catalog), Sample.fresh).
Proof. vm_compute; reflexivity. Qed.

(** On the documents of the format, the loader always returns a catalog;
    whenever an exception is raised while the file is opened, decoded,
    parsed or subscripted, that catalog is the empty one, and a reload then
    succeeds with an empty catalog. *)
Theorem load_failure_gives_empty_catalog file :
  (∃ catalog, load_data_from_json file = inr catalog)
  ∧ (∀ e, load_body file = inl e →
          load_data_from_json file = inr []
          ∧ ∀ st, reload_data file st = (inr (reloaded []), restarted [])).
Proof.
  split; [apply load_data_from_json_total|].
  intros e Hbody.
  pose proof (load_data_from_json_failed file e Hbody) as Hload.
  split; [exact Hload|].
  intros st. by apply reload_data_unfold.
Qed.

Lemma load_failure_gives_empty_catalog_witness :
  (load_body Missing = inl Py.FileNotFoundError
   ∧ load_data_from_json Missing = inr [])
  ∧ (load_body NotJson = inl Py.JSONDecodeError
     ∧ load_data_from_json NotJson = inr [])
  ∧ (load_body (Parsed Sample.document_without_metadata)
     = inl (Py.KeyError "metadata")
     ∧ load_data_from_json (Parsed Sample.document_without_metadata) = inr [])
  ∧ (load_body (Parsed JsonArray) = inl Py.TypeError
     ∧ reload_data (Parsed JsonArray) Sample.twice_A
       = (inr (reloaded []), restarted [])).
Proof.
  split; [|split; [|split]]; (split; [reflexivity|]).
  - apply (proj2 (load_failure_gives_empty_catalog Missing)
             Py.FileNotFoundError).
    reflexivity.
  - apply (proj2 (load_failure_gives_empty_catalog NotJson)
             Py.JSONDecodeError).
    reflexivity.
  - apply (proj2 (load_failure_gives_empty_catalog
                    (Parsed Sample.document_without_metadata))
             (Py.KeyError "metadata")).
    reflexivity.
  - apply (proj2 (load_failure_gives_empty_catalog (Parsed JsonArray))
             Py.TypeError).
    reflexivity.
Defined.

(** * Further properties of the service *)

(** ** Listings *)

Lemma get_infographics_filter category st :
  get_infographics category st = filter (in_category category) (infographics st).
Proof.
  unfold get_infographics. destruct category as [[|a c]|]; simpl.
  - symmetry. apply filter_all. intros info. by left.
  - apply list_filter_iff. intros info. unfold in_category. split.
    + intros [= Hc]. by right.
    + intros [Hc|Hc]; [done | by rewrite Hc].
  - symmetry. by apply filter_all.
Qed.

Lemma get_labels_filter category st :
  get_labels category st = filter (label_listed category) (labels st).
Proof.
  unfold get_labels. destruct category as [c|]; simpl.
  - destruct (Py.truthy c) eqn:Hc; simpl.
    + destruct (bool_decide (Some c = Some "All")) eqn:Hall; simpl.
      * apply bool_decide_eq_true in Hall as [= ->].
        symmetry. apply filter_all. intros label. right. by left.
      * apply bool_decide_eq_false in Hall.
        apply list_filter_iff. intros label. unfold label_listed. split.
        -- intros [= Heq]. right. by right.
        -- intros [->|[->|Heq]]; [done | done | by rewrite Heq].
    + apply truthy_false in Hc as ->.
      symmetry. apply filter_all. intros label. by left.
  - symmetry. by apply filter_all.
Qed.

(** X1: for every category argument, the unlabeled listing is the listing
    of [get_infographics] for the same argument, in the same order, without
    the items some label refers to. *)
Theorem get_unlabeled_within_get_infographics category st :
  get_unlabeled_infographics category st
  = filter (not_labeled st) (get_infographics category st)
  ∧ get_unlabeled_infographics category st
      `sublist_of` get_infographics category st.
Proof.
  assert (get_unlabeled_infographics category st
          = filter (not_labeled st) (get_infographics category st)) as Heq.
  { rewrite get_unlabeled_infographics_filter, get_infographics_filter.
    rewrite list_filter_filter. apply list_filter_iff. intros info.
    unfold wanted, not_labeled, in_category. tauto. }
  split; [exact Heq|]. rewrite Heq. apply sublist_filter.
Qed.

(** X2: for a category of the catalog other than the empty string and
    "All", [get_labels], and the request of the "View Labels" page, return the
    labels of that category in the order of submission, and their number is
    the [labeled] figure of the category in the statistics. *)
Theorem get_labels_agrees_with_stats st c :
  c ≠ "" → c ≠ "All" →
  (∃ info, info ∈ infographics st ∧ info_category info = c) →
  get_labels (Some c) st = filter (λ label, label_category label = c) (labels st)
  ∧ Pages.view_labels c st = get_labels (Some c) st
  ∧ ∃ stats, get_category_stats st !! c = Some stats
             ∧ labeled stats = Z.of_nat (length (get_labels (Some c) st)).
Proof.
  intros Hne Hall Hc.
  assert (get_labels (Some c) st
          = filter (λ label, label_category label = c) (labels st)) as Heq.
  { rewrite get_labels_filter. apply list_filter_iff. intros label.
    unfold label_listed. intuition. }
  split; [exact Heq|]. split.
  - unfold Pages.view_labels. by rewrite bool_decide_eq_true_2.
  - exists (category_entry st c).
    split; [by apply get_category_stats_present|]. by rewrite Heq.
Qed.

Lemma get_labels_agrees_with_stats_witness :
  get_labels (Some "Charts") Sample.overlabeled
  = [Sample.label_drift; Sample.label_C]
  ∧ ∃ stats, get_category_stats Sample.overlabeled !! "Charts" = Some stats
             ∧ labeled stats
               = Z.of_nat (length (get_labels (Some "Charts") Sample.overlabeled)).
Proof.
  split; [vm_compute; reflexivity|].
  apply (get_labels_agrees_with_stats Sample.overlabeled "Charts");
    [discriminate | discriminate |].
  exists Sample.item_C. split; [|reflexivity].
  apply list_elem_of_further, list_elem_of_further, list_elem_of_here.
Defined.

(** X3: once [add_label] has accepted a label, every listing of
    [get_labels] whose category argument lets the label through is the
    former listing followed by the new label, and every other listing is
    unchanged. *)
Theorem accepted_label_is_listed label st m st' category :
  add_label label st = (inr m, st') →
  get_labels category st'
  = get_labels category st
    ++ (if decide (label_listed category label) then [label] else []).
Proof.
  intros [_ ->]%add_label_accepted.
  rewrite !get_labels_filter. simpl.
  by rewrite filter_app, filter_cons, filter_nil.
Qed.

Lemma accepted_label_is_listed_witness :
  add_label Sample.label_C (with_label Sample.label_A Sample.fresh)
  = (inr label_submitted,
     with_label Sample.label_C (with_label Sample.label_A Sample.fresh))
  ∧ get_labels (Some "Charts")
      (with_label Sample.label_C (with_label Sample.label_A Sample.fresh))
    = get_labels (Some "Charts") (with_label Sample.label_A Sample.fresh)
      ++ [Sample.label_C].
Proof.
  split; [vm_compute; reflexivity|].
  apply (accepted_label_is_listed Sample.label_C
           (with_label Sample.label_A Sample.fresh) label_submitted
           (with_label Sample.label_C (with_label Sample.label_A Sample.fresh))
           (Some "Charts")).
  vm_compute; reflexivity.
Defined.

(** ** The keys and the figures of the statistics *)

Lemma filter_length_pos {A} (P : A → Prop) `{!∀ x, Decision (P x)}
      (l : list A) (x : A) :
  x ∈ l → P x → (0 < length (filter P l))%nat.
Proof.
  intros Hin HP.
  assert (x ∈ filter P l) as Hx by (by apply list_elem_of_filter).
  destruct (filter P l); [by apply not_elem_of_nil in Hx | simpl; lia].
Qed.

(** X4: the statistics have one entry per category of the catalog and no
    other; in every entry [total] is at least one, so that the quotient
    [labeled / total] of the progress bars never divides by zero, [labeled]
    is not negative and [unlabeled] is their difference. *)
Theorem category_stats_keys st :
  dom (get_category_stats st) = get_categories st
  ∧ ∀ c stats, get_category_stats st !! c = Some stats →
               1 ≤ total stats ∧ 0 ≤ labeled stats
               ∧ unlabeled stats = total stats - labeled stats.
Proof.
  split.
  - apply set_eq. intros c.
    rewrite elem_of_dom, get_category_stats_lookup.
    destruct (decide (c ∈ get_categories st)) as [Hin|Hnot].
    + split; [done | by eexists].
    + split; [by intros [? ?] | done].
  - intros c stats. rewrite get_category_stats_lookup.
    destruct (decide (c ∈ get_categories st)) as [Hin|Hnot]; [|done].
    intros [= <-]. apply elem_of_get_categories in Hin as (info & Hin & Hc).
    unfold category_entry; simpl.
    pose proof (filter_length_pos (λ info, info_category info = c)
                  (infographics st) info Hin Hc).
    repeat split; lia.
Qed.

Lemma category_stats_keys_witness :
  dom (get_category_stats Sample.overlabeled) = {["Maps"; "Charts"]}
  ∧ get_category_stats Sample.overlabeled !! "Charts"
    = Some {| total := 1; labeled := 2; unlabeled := -1 |}
  ∧ 1 ≤ total {| total := 1; labeled := 2; unlabeled := -1 |}.
Proof.
  split; [|split; [vm_compute; reflexivity|]].
  - rewrite (proj1 (category_stats_keys Sample.overlabeled)).
    apply set_eq. intros c. unfold get_categories. simpl.
    rewrite !elem_of_union, !elem_of_singleton, elem_of_empty. tauto.
  - apply (proj2 (category_stats_keys Sample.overlabeled) "Charts").
    vm_compute; reflexivity.
Defined.

Lemma foldl_add_foldr (l : list Z) (a : Z) :
  foldl Z.add a l = a + foldr Z.add 0 l.
Proof.
  revert a. induction l as [|x l IH]; intros a; simpl; [lia|].
  rewrite IH. lia.
Qed.

Lemma sum_foldr (l : list Z) : Pages.sum l = foldr Z.add 0 l.
Proof. unfold Pages.sum. rewrite foldl_add_foldr. lia. Qed.

Lemma sum_permutation (l k : list Z) : l ≡ₚ k → Pages.sum l = Pages.sum k.
Proof.
  rewrite !sum_foldr.
  induction 1 as [|x l k _ IH|x y l|l k m _ IH1 _ IH2]; simpl; lia.
Qed.

(** The entries of the statistics, up to the order of the keys. *)
Lemma stats_entries st :
  map_to_list (get_category_stats st)
  ≡ₚ (λ c, (c, category_entry st c)) <$> elements (get_categories st).
Proof.
  apply NoDup_Permutation.
  - apply NoDup_map_to_list.
  - apply NoDup_fmap_2_strong; [|apply NoDup_elements].
    by intros c1 c2 _ _ [= ->].
  - intros [c stats]. rewrite elem_of_map_to_list, get_category_stats_lookup.
    rewrite list_elem_of_fmap. split.
    + destruct (decide (c ∈ get_categories st)) as [Hin|]; [|done].
      intros [= <-]. exists c. split; [done | by apply elem_of_elements].
    + intros (c' & [= -> ->] & Hin%elem_of_elements).
      by rewrite decide_True.
Qed.

Lemma stats_figures (figure : CategoryStats → Z) st :
  Pages.sum (figure <$> (map_to_list (get_category_stats st)).*2)
  = Pages.sum ((λ c, figure (category_entry st c))
                 <$> elements (get_categories st)).
Proof.
  apply sum_permutation. rewrite stats_entries.
  by rewrite <- !list_fmap_compose.
Qed.

Lemma filter_length_disjoint {A} (P Q : A → Prop)
      `{!∀ x, Decision (P x), !∀ x, Decision (Q x)} (l : list A) :
  (∀ x, P x → Q x → False) →
  length (filter (λ x, P x ∨ Q x) l)
  = (length (filter P l) + length (filter Q l))%nat.
Proof.
  intros Hdisj. induction l as [|x l IH]; [done|].
  rewrite !filter_cons.
  destruct (decide (P x)) as [HP|HP], (decide (Q x)) as [HQ|HQ].
  - destruct (Hdisj x HP HQ).
  - rewrite decide_True by auto. simpl. lia.
  - rewrite decide_True by auto. simpl. lia.
  - rewrite decide_False by tauto. exact IH.
Qed.

(** Counting the records key by key, over keys without repetition, counts
    the records whose key is among them. *)
Lemma sum_counts {A} (key : A → string) (keys : list string) (l : list A) :
  NoDup keys →
  Pages.sum ((λ c, Z.of_nat (length (filter (λ x, key x = c) l))) <$> keys)
  = Z.of_nat (length (filter (λ x, key x ∈ keys) l)).
Proof.
  rewrite sum_foldr. induction 1 as [|k keys Hk _ IH].
  - rewrite (list_filter_iff _ (λ _, False)).
    + by induction l.
    + intros x. split; [apply not_elem_of_nil | done].
  - rewrite fmap_cons. cbn [foldr]. rewrite IH.
    rewrite (list_filter_iff (λ x, key x ∈ k :: keys)
               (λ x, key x = k ∨ key x ∈ keys)).
    + rewrite filter_length_disjoint; [lia|].
      intros x Heq Hin. apply Hk. by rewrite <- Heq.
    + intros x. apply elem_of_cons.
Qed.

Lemma filter_all_in {A} (P : A → Prop) `{!∀ x, Decision (P x)} (l : list A) :
  (∀ x, x ∈ l → P x) → filter P l = l.
Proof.
  induction l as [|x l IH]; intros HP; [done|].
  rewrite filter_cons_True by (apply HP; left).
  rewrite IH; [done|]. intros y Hy. apply HP. by right.
Qed.

Lemma total_images_eq st :
  Pages.total_images (get_category_stats st)
  = Z.of_nat (length (infographics st)).
Proof.
  unfold Pages.total_images. rewrite (stats_figures total).
  unfold category_entry; simpl.
  rewrite (sum_counts info_category); [|apply NoDup_elements].
  f_equal. f_equal. apply filter_all_in. intros info Hin.
  apply elem_of_elements, elem_of_get_categories. by exists info.
Qed.

Lemma total_labeled_eq st :
  Pages.total_labeled (get_category_stats st)
  = count (λ label, label_category label ∈ get_categories st) (labels st).
Proof.
  unfold Pages.total_labeled. rewrite (stats_figures labeled).
  unfold category_entry, count; simpl.
  rewrite (sum_counts label_category); [|apply NoDup_elements].
  f_equal. f_equal. apply list_filter_iff. intros label.
  apply elem_of_elements.
Qed.

Example overall_progress_with_stray_label :
  Pages.total_images (get_category_stats Sample.with_stray) = 3
  ∧ Pages.total_labeled (get_category_stats Sample.with_stray) = 1
  ∧ Pages.total_labeled
      (get_category_stats
         {| infographics := Sample.catalog;
            labels := [Sample.label_for "A" "Plans" []] |}) = 0.
Proof. repeat split; vm_compute; reflexivity. Qed.

(** ** Adding items and resubmitting labels *)

Lemma add_infographic_store infographic st :
  (add_infographic infographic st).2
  = {| infographics := infographics st ++ [infographic]; labels := labels st |}.
Proof. reflexivity. Qed.

(** X7: [add_infographic] puts the item at the end of every listing whose
    category argument it matches, without looking for an item of the same
    title; it enters the unlabeled listing only if no stored label already
    names its title. *)
Theorem add_infographic_listings infographic st category :
  get_infographics category (add_infographic infographic st).2
  = get_infographics category st
    ++ (if decide (in_category category infographic) then [infographic] else [])
  ∧ get_unlabeled_infographics category (add_infographic infographic st).2
    = get_unlabeled_infographics category st
      ++ (if decide (in_category category infographic
                     ∧ not_labeled st infographic)
          then [infographic] else []).
Proof.
  rewrite add_infographic_store, !get_infographics_filter,
    !get_unlabeled_infographics_filter. simpl.
  rewrite !filter_app, !filter_cons, !filter_nil. split; [done|].
  f_equal. apply decide_ext. unfold wanted, not_labeled, in_category; simpl.
  tauto.
Qed.

Example stray_label_hides_late_item :
  get_unlabeled_infographics None (add_infographic Sample.item_Z Sample.with_stray).2
  = Sample.catalog
  ∧ get_infographics None (add_infographic Sample.item_Z Sample.with_stray).2
    = Sample.catalog ++ [Sample.item_Z]
  ∧ get_unlabeled_infographics None
      (add_infographic Sample.item_A
         (add_infographic Sample.item_A Sample.fresh).2).2
    = Sample.catalog ++ [Sample.item_A; Sample.item_A].
Proof. repeat split; vm_compute; reflexivity. Qed.

(** X8: after [add_infographic] the statistics have an entry for the
    category of the item; its [total] is one more than the number of items
    the category had, and its [labeled] is the number of labels already
    stored under that category. *)
Theorem add_infographic_statistics infographic st :
  ∃ stats,
    get_category_stats (add_infographic infographic st).2
      !! info_category infographic = Some stats
    ∧ total stats
      = count (λ info, info_category info = info_category infographic)
              (infographics st) + 1
    ∧ labeled stats
      = count (λ label, label_category label = info_category infographic)
              (labels st).
Proof.
  rewrite add_infographic_store.
  eexists. split.
  - apply get_category_stats_present. exists infographic.
    split; [|done]. simpl. apply elem_of_app. right. by left.
  - unfold category_entry, count; simpl.
    rewrite filter_app, length_app, filter_cons_True by done. simpl.
    split; [lia | done].
Qed.

(** X9: a label that was accepted is accepted again; the second
    submission stores a second record, so the [labeled] figure of an entry
    of that category in the statistics goes up by two in all, while every
    unlabeled listing is what it was after the first submission. *)
Theorem resubmission_appends label st m st1 :
  add_label label st = (inr m, st1) →
  add_label label st1 = (inr label_submitted, with_label label st1)
  ∧ labels (with_label label st1) = labels st ++ [label; label]
  ∧ (∀ category,
       get_unlabeled_infographics category (with_label label st1)
       = get_unlabeled_infographics category st1)
  ∧ labeled <$> get_category_stats (with_label label st1) !! label_category label
    = (λ stats, labeled stats + 2)
        <$> get_category_stats st !! label_category label.
Proof.
  intros [Hok ->]%add_label_accepted.
  split; [by rewrite add_label_unfold, Hok|].
  split; [simpl; by rewrite <- app_assoc|]. split.
  - intros category.
    rewrite !get_unlabeled_infographics_with_label, list_filter_filter.
    apply list_filter_iff. tauto.
  - rewrite !get_category_stats_lookup.
    assert (get_categories (with_label label (with_label label st))
            = get_categories st) as -> by done.
    destruct (decide (label_category label ∈ get_categories st)); [|done].
    cbn [fmap option_fmap option_map]. f_equal.
    rewrite !labeled_counts_records by done. lia.
Qed.

Lemma resubmission_appends_witness :
  add_label Sample.label_A Sample.fresh
  = (inr label_submitted, with_label Sample.label_A Sample.fresh)
  ∧ add_label Sample.label_A (with_label Sample.label_A Sample.fresh)
    = (inr label_submitted,
       with_label Sample.label_A (with_label Sample.label_A Sample.fresh))
  ∧ labels (with_label Sample.label_A (with_label Sample.label_A Sample.fresh))
    = labels Sample.fresh ++ [Sample.label_A; Sample.label_A].
Proof.
  split; [vm_compute; reflexivity|].
  assert (add_label Sample.label_A Sample.fresh
          = (inr label_submitted, with_label Sample.label_A Sample.fresh)) as H
    by (vm_compute; reflexivity).
  destruct (resubmission_appends Sample.label_A Sample.fresh label_submitted
              (with_label Sample.label_A Sample.fresh) H) as (H1 & H2 & _).
  split; [exact H1 | exact H2].
Defined.

(** ** The catalog the loader returns *)

(** X10: a catalog that is not empty can only be the member "metadata"
    of a data file that parsed to an object; every other data file, and an
    object whose "metadata" is the empty list, give the empty catalog. *)
Theorem nonempty_catalog_is_metadata file catalog :
  load_data_from_json file = inr catalog →
  catalog ≠ [] →
  ∃ members, file = Parsed (JsonObject members)
             ∧ members !! "metadata" = Some catalog.
Proof.
  unfold load_data_from_json.
  destruct (load_body file) as [e|loaded] eqn:Hbody; simpl.
  - by intros [= <-].
  - intros [= <-] _. by apply load_body_ok_iff.
Qed.

Lemma nonempty_catalog_is_metadata_witness :
  load_data_from_json (Parsed Sample.document) = inr Sample.catalog
  ∧ ∃ members, Parsed Sample.document = Parsed (JsonObject members)
               ∧ members !! "metadata" = Some Sample.catalog.
Proof.
  split; [reflexivity|].
  apply (nonempty_catalog_is_metadata (Parsed Sample.document) Sample.catalog);
    [reflexivity | discriminate].
Defined.

(** ** The form of the labelling page *)

(** X11: the form keeps a pair exactly when its question and its answer
    each hold a character that is not white space, in the order of the form;
    it posts nothing exactly when every pair has a field of white space
    only, an empty field included. *)
Theorem form_keeps_pairs_with_text form :
  Frontend.valid_qa_pairs form
  = filter (λ qa, Py.all_space (Frontend.question qa) = false
                  ∧ Py.all_space (Frontend.answer qa) = false) form
  ∧ (Frontend.posted_qa_pairs form = None
     ↔ Forall (λ qa, Py.all_space (Frontend.question qa) = true
                     ∨ Py.all_space (Frontend.answer qa) = true) form).
Proof.
  assert (∀ s, Py.truthy (Py.strip s) = true ↔ Py.all_space s = false) as Hs.
  { intros s. rewrite <- not_true_iff_false, <- strip_empty_iff.
    destruct (Py.strip s); simpl; split; congruence. }
  assert (∀ qa, Frontend.well_formed qa = true
                ↔ Py.all_space (Frontend.question qa) = false
                  ∧ Py.all_space (Frontend.answer qa) = false) as Hwf.
  { intros qa. unfold Frontend.well_formed.
    by rewrite andb_true_iff, !Hs. }
  split.
  - unfold Frontend.valid_qa_pairs. by apply list_filter_iff.
  - unfold Frontend.posted_qa_pairs, Frontend.valid_qa_pairs.
    rewrite Forall_forall. split.
    + destruct (filter _ form) eqn:Hv; [|done]. intros _ qa Hin.
      destruct (Frontend.well_formed qa) eqn:Hqa.
      * assert (qa ∈ filter (λ qa, Frontend.well_formed qa = true) form) as Hx
          by (by apply list_elem_of_filter).
        rewrite Hv in Hx. by apply not_elem_of_nil in Hx.
      * apply not_true_iff_false in Hqa. rewrite Hwf in Hqa.
        destruct (Py.all_space (Frontend.question qa)),
                 (Py.all_space (Frontend.answer qa)); auto; by destruct Hqa.
    + intros Hall.
      destruct (filter _ form) as [|qa valid] eqn:Hv; [done|].
      assert (qa ∈ filter (λ qa, Frontend.well_formed qa = true) form) as Hx
        by (rewrite Hv; left).
      apply list_elem_of_filter in Hx as [Hqa Hin].
      apply Hwf in Hqa as [Hq Ha].
      destruct (Hall qa Hin); congruence.
Qed.

(** ** The tags of the labelling page *)

Lemma rstrip_keeps_head a rest :
  Py.isspace a = false → Py.rstrip (String a rest) = String a (Py.rstrip rest).
Proof. intros Ha. simpl. rewrite Ha. by destruct (Py.rstrip rest). Qed.

Lemma rstrip_cons a rest :
  Py.rstrip (String a rest)
  = match Py.rstrip rest with
    | EmptyString => if Py.isspace a then EmptyString else String a EmptyString
    | kept => String a kept
    end.
Proof. reflexivity. Qed.

Lemma rstrip_idempotent s : Py.rstrip (Py.rstrip s) = Py.rstrip s.
Proof.
  induction s as [|a s IH]; [done|]. rewrite rstrip_cons.
  destruct (Py.rstrip s) as [|b kept] eqn:Hr.
  - destruct (Py.isspace a) eqn:Ha; [done|]. simpl. by rewrite Ha.
  - by rewrite rstrip_cons, IH.
Qed.

Lemma strip_idempotent s : Py.strip (Py.strip s) = Py.strip s.
Proof.
  unfold Py.strip. destruct (Py.lstrip s) as [|a rest] eqn:Hl; [done|].
  pose proof (lstrip_head_not_space _ _ _ Hl) as Ha.
  rewrite (rstrip_keeps_head a rest Ha). cbn [Py.lstrip]. rewrite Ha.
  by rewrite (rstrip_keeps_head _ _ Ha), rstrip_idempotent.
Qed.

Lemma lstrip_no_newline s :
  Pages.has_newline s = false → Pages.has_newline (Py.lstrip s) = false.
Proof.
  induction s as [|a s IH]; [done|]. simpl.
  intros [Ha Hs]%orb_false_iff.
  destruct (Py.isspace a); [by apply IH | simpl; by rewrite Ha, Hs].
Qed.

Lemma rstrip_no_newline s :
  Pages.has_newline s = false → Pages.has_newline (Py.rstrip s) = false.
Proof.
  induction s as [|a s IH]; [done|]. simpl.
  intros [Ha Hs]%orb_false_iff. specialize (IH Hs).
  destruct (Py.rstrip s) as [|b kept].
  - destruct (Py.isspace a); [done | simpl; by rewrite Ha].
  - cbn [Pages.has_newline] in *. by rewrite Ha, IH.
Qed.

Lemma strip_no_newline s :
  Pages.has_newline s = false → Pages.has_newline (Py.strip s) = false.
Proof. intros Hs. by apply rstrip_no_newline, lstrip_no_newline. Qed.

(** No piece of a split holds the separator. *)
Lemma split_lines_no_newline s :
  Forall (λ line, Pages.has_newline line = false) (Pages.split_lines s).
Proof.
  induction s as [|a s IH]; simpl; [by repeat constructor|].
  destruct (Ascii.eqb a Pages.newline) eqn:Ha; [by constructor|].
  destruct (Pages.split_lines s) as [|first others].
  - repeat constructor. simpl. by rewrite Ha.
  - apply Forall_cons in IH as [Hfirst Hothers].
    constructor; [|done]. simpl. by rewrite Ha, Hfirst.
Qed.

Lemma split_lines_single s :
  Pages.has_newline s = false → Pages.split_lines s = [s].
Proof.
  induction s as [|a s IH]; [done|]. simpl.
  intros [Ha Hs]%orb_false_iff. by rewrite Ha, (IH Hs).
Qed.

Lemma split_lines_append s rest :
  Pages.has_newline s = false →
  Pages.split_lines (String.append s (String Pages.newline rest))
  = s :: Pages.split_lines rest.
Proof.
  induction s as [|a s IH]; [done|]. simpl.
  intros [Ha Hs]%orb_false_iff. by rewrite Ha, (IH Hs).
Qed.

(** Splitting what was joined gives the lines back, when there is a line
    and no line holds the separator. *)
Lemma split_join_lines lines :
  lines ≠ [] →
  Forall (λ line, Pages.has_newline line = false) lines →
  Pages.split_lines (Pages.join_lines lines) = lines.
Proof.
  induction lines as [|line rest IH]; [done|]. intros _ Hall.
  apply Forall_cons in Hall as [Hline Hrest].
  destruct rest as [|next rest].
  - by apply split_lines_single.
  - cbn [Pages.join_lines].
    rewrite (split_lines_append _ _ Hline). f_equal. by apply IH.
Qed.

(** X13: whatever the text of the tags area, no tag of the posted label is
    empty, none starts or ends with white space (trimming it again changes
    nothing) and none holds a line break. *)
Theorem posted_tags_are_clean tags :
  Forall (λ tag, tag ≠ "" ∧ Py.strip tag = tag ∧ Pages.has_newline tag = false)
         (Pages.posted_tags tags).
Proof.
  unfold Pages.posted_tags. apply Forall_fmap, Forall_forall.
  intros line [Hline Hin]%list_elem_of_filter. simpl.
  pose proof (split_lines_no_newline tags) as Hall.
  rewrite Forall_forall in Hall.
  split; [|split].
  - intros Hempty. by rewrite Hempty in Hline.
  - apply strip_idempotent.
  - by apply strip_no_newline, Hall.
Qed.

Example posted_tags_of_untidy_text :
  Pages.posted_tags
    (String.append "  city map " (String Pages.newline
       (String.append "   " (String Pages.newline "roads"))))
  = ["city map"; "roads"]
  ∧ Pages.posted_tags "" = [].
Proof. split; vm_compute; reflexivity. Qed.

(** X14: when no tag of the item holds a line break and the annotator
    leaves the tags area as it was filled, the posted tags are the tags of
    the item, in their order, trimmed and without the blank ones. *)
Theorem untouched_tags_round_trip current :
  Forall (λ tag, Pages.has_newline tag = false) (info_tags current) →
  Pages.posted_tags (Pages.tags_text current)
  = Py.strip <$> filter (λ tag, Py.truthy (Py.strip tag) = true)
                        (info_tags current).
Proof.
  intros Hall. unfold Pages.posted_tags, Pages.tags_text.
  set (kept := filter (λ tag, Py.truthy tag = true) (info_tags current)).
  assert (filter (λ tag, Py.truthy (Py.strip tag) = true) (info_tags current)
          = filter (λ tag, Py.truthy (Py.strip tag) = true) kept) as ->.
  { unfold kept. rewrite list_filter_filter. apply list_filter_iff.
    intros tag. split; [|tauto]. intros Htag. split; [done|].
    by apply truthy_strip. }
  destruct kept as [|tag rest] eqn:Hkept; [done|].
  rewrite split_join_lines; [done | done |].
  rewrite <- Hkept. unfold kept. apply Forall_forall.
  intros x [_ Hx]%list_elem_of_filter.
  rewrite Forall_forall in Hall. by apply Hall.
Qed.

Lemma untouched_tags_round_trip_witness :
  Forall (λ tag, Pages.has_newline tag = false) (info_tags Sample.item_C)
  ∧ Pages.posted_tags (Pages.tags_text Sample.item_C) = []
  ∧ Pages.posted_tags (Pages.tags_text Sample.item_A) = ["map"].
Proof.
  split; [repeat constructor|]. split.
  - apply (untouched_tags_round_trip Sample.item_C). repeat constructor.
  - apply (untouched_tags_round_trip Sample.item_A). repeat constructor.
Defined.

(** ** Moving through the unlabeled items *)

Lemma navigate_range previous next n i :
  0 ≤ i < n →
  0 ≤ Pages.navigate previous next n i < n
  ∧ i - 1 ≤ Pages.navigate previous next n i ≤ i + 1.
Proof.
  intros Hi. unfold Pages.navigate.
  destruct previous, next; simpl; repeat case_bool_decide; lia.
Qed.

Lemma list_getitem_in_range {A} (l : list A) (i : Z) :
  0 ≤ i < Z.of_nat (length l) →
  Pages.list_getitem l i = l !! Z.to_nat i ∧ is_Some (l !! Z.to_nat i).
Proof.
  intros Hi. unfold Pages.list_getitem.
  rewrite bool_decide_eq_true_2 by done.
  split; [done|]. apply lookup_lt_is_Some. lia.
Qed.

(** X15: as long as [current_index] is an index of the unlabeled listing
    of the selected category, a run of the labelling page, whichever
    navigation button is pressed, shows the item of the listing at the
    index it leaves behind; that index is still an index of the listing, at
    most one step away. *)
Theorem navigation_stays_in_range previous next category current_index st :
  0 ≤ current_index
    < Z.of_nat (length (get_unlabeled_infographics (Some category) st)) →
  ∃ current index',
    Pages.label_infographics previous next category current_index st
    = (Pages.Shows current, index')
    ∧ 0 ≤ index'
        < Z.of_nat (length (get_unlabeled_infographics (Some category) st))
    ∧ get_unlabeled_infographics (Some category) st !! Z.to_nat index'
      = Some current
    ∧ current_index - 1 ≤ index' ≤ current_index + 1.
Proof.
  intros Hi. unfold Pages.label_infographics.
  set (view := get_unlabeled_infographics (Some category) st) in *.
  destruct (navigate_range previous next _ _ Hi) as [Hrange Hstep].
  destruct (list_getitem_in_range view _ Hrange) as [Hget [current Hcur]].
  destruct view as [|first others] eqn:Hview; [simpl in Hi; lia|].
  rewrite Hget, Hcur. by exists current, (Pages.navigate previous next
    (Z.of_nat (length (first :: others))) current_index).
Qed.

Lemma navigation_stays_in_range_witness :
  0 ≤ 1 < Z.of_nat (length (get_unlabeled_infographics (Some "Maps") Sample.fresh))
  ∧ Pages.label_infographics false true "Maps" 1 Sample.fresh
    = (Pages.Shows Sample.item_B, 1)
  ∧ ∃ current index',
      Pages.label_infographics true false "Maps" 1 Sample.fresh
      = (Pages.Shows current, index').
Proof.
  split; [vm_compute; split; congruence|].
  split; [vm_compute; reflexivity|].
  destruct (navigation_stays_in_range true false "Maps" 1 Sample.fresh)
    as (current & index' & Hrun & _).
  - vm_compute; split; congruence.
  - by exists current, index'.
Defined.

Lemma add_label_nonblank label st :
  Forall (λ qa, qa_blank qa = false) (qa_pairs label) →
  add_label label st = (inr label_submitted, with_label label st).
Proof.
  intros Hall. rewrite add_label_unfold.
  destruct (existsb qa_incomplete (qa_pairs label)) eqn:Hex; [|done].
  apply existsb_exists in Hex as (qa & Hin & Hqa).
  apply list_elem_of_In in Hin. rewrite Forall_forall in Hall.
  by rewrite (qa_blank_incomplete qa (Hall qa Hin)) in Hqa.
Qed.

(** In a list without two records of the same key, dropping the records
    that share the key of the record at an index deletes that index. *)
Lemma filter_delete_NoDup {A} (key : A → string) (l : list A) (i : nat) (x : A) :
  NoDup (key <$> l) → l !! i = Some x →
  filter (λ y, key y ≠ key x) l = delete i l.
Proof.
  revert i. induction l as [|y l IH]; intros i Hnodup Hi; [done|].
  rewrite fmap_cons in Hnodup. apply NoDup_cons in Hnodup as [Hy Hnodup].
  destruct i as [|i]; simpl in Hi.
  - injection Hi as ->. rewrite filter_cons_False by auto. simpl.
    apply filter_all_in. intros z Hz Heq. apply Hy. rewrite <- Heq.
    by apply list_elem_of_fmap_2.
  - rewrite filter_cons_True.
    + simpl. f_equal. by apply IH.
    + intros Heq. apply Hy. rewrite Heq.
      apply list_elem_of_fmap_2. by eapply list_elem_of_lookup_2.
Qed.

(** X16: in a listing without two items of the same title, a label
    submitted for the item at index [i], when that item is not the last,
    is accepted, [current_index] becomes [i + 1] and the page runs again;
    the new listing is the former one without index [i], so the run shows
    the item that was at index [i + 2], passing over the one that was at
    [i + 1], and raises [IndexError] when there was none. *)
Theorem submit_skips_the_next_item category st view i current tags form now :
  view = get_unlabeled_infographics (Some category) st →
  NoDup (info_title <$> view) →
  view !! i = Some current →
  (S i < length view)%nat →
  Frontend.valid_qa_pairs form ≠ [] →
  ∃ st',
    Pages.submit_label view current category tags form now (Z.of_nat i) st
    = (Pages.Sent true, Z.of_nat i + 1, st')
    ∧ get_unlabeled_infographics (Some category) st' = delete i view
    ∧ Pages.label_infographics false false category (Z.of_nat i + 1) st'
      = (match view !! (i + 2)%nat with
         | Some next_item => Pages.Shows next_item
         | None => Pages.IndexError
         end, Z.of_nat i + 1).
Proof.
  intros Hview Hnodup Hcur Hlast Hvalid.
  set (label := Pages.label_data current category tags
                  (Frontend.valid_qa_pairs form) now).
  assert (add_label label st = (inr label_submitted, with_label label st))
    as Hadd.
  { apply add_label_nonblank. simpl.
    apply (posted_qa_pairs_valid form). unfold Frontend.posted_qa_pairs.
    by destruct (Frontend.valid_qa_pairs form). }
  assert (get_unlabeled_infographics (Some category) (with_label label st)
          = delete i view) as Hview'.
  { rewrite get_unlabeled_infographics_with_label, <- Hview. simpl.
    by apply (filter_delete_NoDup info_title). }
  exists (with_label label st). split; [|split; [exact Hview'|]].
  - unfold Pages.submit_label.
    destruct (Frontend.valid_qa_pairs form) as [|qa valid] eqn:Hv; [done|].
    fold label. rewrite Hadd.
    rewrite bool_decide_eq_true_2; [done | lia].
  - unfold Pages.label_infographics. rewrite Hview'.
    assert (length (delete i view) = (length view - 1)%nat) as Hlen.
    { rewrite length_delete; [done | by eexists]. }
    destruct (delete i view) as [|first others] eqn:Hdel;
      [simpl in Hlen; lia|].
    rewrite <- Hdel in *.
    assert (Pages.navigate false false (Z.of_nat (length (delete i view)))
              (Z.of_nat i + 1) = Z.of_nat i + 1) as -> by done.
    unfold Pages.list_getitem. rewrite Hlen.
    destruct (decide (i + 2 < length view)%nat) as [Hin|Hout].
    + rewrite bool_decide_eq_true_2 by lia.
      replace (Z.to_nat (Z.of_nat i + 1)) with (S i) by lia.
      rewrite list_lookup_delete_ge by lia.
      replace (S (S i)) with (i + 2)%nat by lia.
      destruct (lookup_lt_is_Some_2 view (i + 2) Hin) as [next_item ->].
      done.
    + rewrite bool_decide_eq_false_2 by lia.
      rewrite bool_decide_eq_false_2 by lia.
      by rewrite (lookup_ge_None_2 view (i + 2)) by lia.
Qed.

Lemma submit_skips_the_next_item_witness :
  get_unlabeled_infographics (Some "Maps") Sample.fresh
  = [Sample.item_A; Sample.item_B]
  ∧ ∃ st',
      Pages.submit_label [Sample.item_A; Sample.item_B] Sample.item_A "Maps"
        "map" [Frontend.mkFormPair "q" "a"] 0 0 Sample.fresh
      = (Pages.Sent true, 1, st')
      ∧ get_unlabeled_infographics (Some "Maps") st' = [Sample.item_B]
      ∧ Pages.label_infographics false false "Maps" 1 st'
        = (Pages.IndexError, 1).
Proof.
  split; [vm_compute; reflexivity|].
  apply (submit_skips_the_next_item "Maps" Sample.fresh
           [Sample.item_A; Sample.item_B] 0%nat Sample.item_A "map"
           [Frontend.mkFormPair "q" "a"] 0).
  - vm_compute; reflexivity.
  - vm_compute. repeat constructor.
    + intros H. apply list_elem_of_singleton in H. discriminate H.
    + apply not_elem_of_nil.
  - reflexivity.
  - simpl. lia.
  - vm_compute. discriminate.
Defined.

Example submit_passes_over_item_B :
  get_unlabeled_infographics (Some "Maps")
    (add_infographic Sample.item_Z Sample.fresh).2
  = [Sample.item_A; Sample.item_B; Sample.item_Z]
  ∧ Pages.label_infographics false false "Maps" 1
      (with_label Sample.label_A (add_infographic Sample.item_Z Sample.fresh).2)
    = (Pages.Shows Sample.item_Z, 1).
Proof. split; vm_compute; reflexivity. Qed.

(** X12: pressing "Submit Label" never meets a refusal of the service.
    With no pair that is well formed nothing is sent and nothing changes;
    otherwise the label built from the well-formed pairs is accepted and
    stored, and the page moves one index forward and runs again exactly
    when the current index is not the last of the listing it fetched. *)
Theorem submit_label_is_never_refused view current category tags form now
    current_index st :
  (Frontend.valid_qa_pairs form = [] →
   Pages.submit_label view current category tags form now current_index st
   = (Pages.NothingSent, current_index, st))
  ∧ (Frontend.valid_qa_pairs form ≠ [] →
     Pages.submit_label view current category tags form now current_index st
     = (Pages.Sent (bool_decide (current_index < Z.of_nat (length view) - 1)),
        if bool_decide (current_index < Z.of_nat (length view) - 1)
        then current_index + 1 else current_index,
        with_label
          (Pages.label_data current category tags
             (Frontend.valid_qa_pairs form) now) st)).
Proof.
  unfold Pages.submit_label. split.
  - by intros ->.
  - intros Hvalid.
    set (label := Pages.label_data current category tags
                    (Frontend.valid_qa_pairs form) now).
    assert (add_label label st = (inr label_submitted, with_label label st))
      as Hadd.
    { apply add_label_nonblank. simpl.
      apply (posted_qa_pairs_valid form). unfold Frontend.posted_qa_pairs.
      by destruct (Frontend.valid_qa_pairs form). }
    destruct (Frontend.valid_qa_pairs form) as [|qa valid] eqn:Hv; [done|].
    fold label. rewrite Hadd.
    by destruct (bool_decide (current_index < Z.of_nat (length view) - 1)).
Qed.

Lemma submit_label_is_never_refused_witness :
  Pages.submit_label [Sample.item_A; Sample.item_B] Sample.item_B "Maps" ""
    [Frontend.mkFormPair " " "x"] 0 1 Sample.fresh
  = (Pages.NothingSent, 1, Sample.fresh)
  ∧ Pages.submit_label [Sample.item_A; Sample.item_B] Sample.item_B "Maps" ""
      [Frontend.mkFormPair " " "x"; Frontend.mkFormPair "q" "a"] 0 1 Sample.fresh
    = (Pages.Sent false, 1,
       with_label (Sample.label_for "B" "Maps" [Sample.pair "q" "a"]) Sample.fresh).
Proof.
  split.
  - apply (proj1 (submit_label_is_never_refused
                    [Sample.item_A; Sample.item_B] Sample.item_B "Maps" ""
                    [Frontend.mkFormPair " " "x"] 0 1 Sample.fresh)).
    vm_compute; reflexivity.
  - apply (proj2 (submit_label_is_never_refused
                    [Sample.item_A; Sample.item_B] Sample.item_B "Maps" ""
                    [Frontend.mkFormPair " " "x"; Frontend.mkFormPair "q" "a"]
                    0 1 Sample.fresh)).
    vm_compute. discriminate.
Defined.

(** ** The loader over arbitrary documents *)

Lemma raw_load_body_ok_iff file v :
  Raw.load_body file = inr v
  ↔ ∃ members, file = Raw.Parsed (Raw.Object members)
               ∧ members !! "metadata" = Some v.
Proof.
  unfold Raw.load_body. split.
  - destruct file as [| | | |[| | | | | |members]]; simpl; try done.
    destruct (members !! "metadata") as [w|] eqn:Hm; [|done].
    intros [= <-]. by exists members.
  - intros (members & -> & Hm). simpl. by rewrite Hm.
Qed.

Lemma as_infographic_of_infographic info :
  Raw.as_infographic (Raw.of_infographic info) = Some info.
Proof.
  destruct info as [category title description tags img_url].
  assert (mapM Raw.as_string (Raw.Str <$> tags) = Some tags) as Htags.
  { apply mapM_Some, Forall2_fmap_l, Forall_Forall2_diag, Forall_forall.
    done. }
  unfold Raw.as_infographic, Raw.of_infographic.
  cbn [info_category info_title info_description info_tags info_img_url].
  repeat (rewrite lookup_insert_eq || rewrite lookup_insert_ne by done).
  cbn [mbind option_bind Raw.as_string Raw.as_strings].
  by rewrite Htags.
Qed.

(** A catalog written in the format reads back as itself. *)
Lemma as_catalog_of_catalog catalog :
  Raw.as_catalog (Raw.of_catalog catalog) = Some catalog.
Proof.
  unfold Raw.as_catalog, Raw.of_catalog.
  apply mapM_Some, Forall2_fmap_l, Forall_Forall2_diag, Forall_forall.
  intros info _. exact (as_infographic_of_infographic info).
Qed.

(** On a document of the format the two loaders agree. *)
Lemma raw_load_data_from_json_typed file :
  Raw.load_data_from_json (raw_file file)
  = match load_data_from_json file with
    | inl e => inl e
    | inr catalog => inr (Raw.of_catalog catalog)
    end.
Proof.
  destruct file as [| | | |[members| |]]; try done.
  unfold Raw.load_data_from_json, Raw.load_body, load_data_from_json, load_body.
  simpl. rewrite lookup_fmap.
  by destruct (members !! "metadata").
Qed.

(** C9, as the code has it: the loader never raises to its caller.  When
    opening, decoding or parsing the document raises, when the parsed value
    is not an object, and when the object has no member "metadata", it
    returns the empty catalog.  Otherwise it returns the member "metadata"
    as it finds it: a member that is not a list of well-formed records is
    returned as it is, not replaced by an empty catalog. *)
Theorem load_data_from_json_returns_metadata_as_found file :
  Raw.load_data_from_json file
  = inr (match file with
         | Raw.Parsed (Raw.Object members) =>
             default (Raw.Array []) (members !! "metadata")
         | _ => Raw.Array []
         end)
  ∧ (∀ e, Raw.load_body file = inl e →
          Raw.load_data_from_json file = inr (Raw.Array []))
  ∧ (∀ v, Raw.load_body file = inr v → Raw.load_data_from_json file = inr v).
Proof.
  split; [|split].
  - destruct file as [| | | |[| | | | | |members]]; try done.
    unfold Raw.load_data_from_json, Raw.load_body. simpl.
    by destruct (members !! "metadata").
  - unfold Raw.load_data_from_json. by intros e ->.
  - unfold Raw.load_data_from_json. by intros v ->.
Qed.

Lemma load_data_from_json_returns_metadata_as_found_witness :
  (Raw.load_body Raw.Missing = inl Py.FileNotFoundError
   ∧ Raw.load_data_from_json Raw.Missing = inr (Raw.Array []))
  ∧ (Raw.load_body (Raw.Parsed (Raw.Array [Raw.of_infographic Sample.item_A]))
     = inl Py.TypeError
     ∧ Raw.load_data_from_json
         (Raw.Parsed (Raw.Array [Raw.of_infographic Sample.item_A]))
       = inr (Raw.Array []))
  ∧ (Raw.load_body (Raw.Parsed Sample.document_with_number)
     = inr (Raw.Number 5)
     ∧ Raw.load_data_from_json (Raw.Parsed Sample.document_with_number)
       = inr (Raw.Number 5)).
Proof.
  split; [|split]; (split; [vm_compute; reflexivity|]).
  - apply (proj1 (proj2 (load_data_from_json_returns_metadata_as_found
                           Raw.Missing)) Py.FileNotFoundError).
    reflexivity.
  - apply (proj1 (proj2 (load_data_from_json_returns_metadata_as_found
                           (Raw.Parsed (Raw.Array [Raw.of_infographic Sample.item_A]))))
             Py.TypeError).
    reflexivity.
  - apply (proj2 (proj2 (load_data_from_json_returns_metadata_as_found
                           (Raw.Parsed Sample.document_with_number)))
             (Raw.Number 5)).
    vm_compute; reflexivity.
Defined.

(** C9 fails as stated: a document whose "metadata" holds a record without
    most of its fields, or a number, is not in the format of the catalog,
    and the loader returns that member instead of the empty catalog. *)
Lemma malformed_metadata_is_returned :
  Raw.as_catalog
    (Raw.Array [Raw.of_infographic Sample.item_A; Sample.record_with_title_only])
  = None
  ∧ Raw.load_data_from_json (Raw.Parsed Sample.document_with_partial_record)
    = inr (Raw.Array [Raw.of_infographic Sample.item_A;
                      Sample.record_with_title_only])
  ∧ Raw.as_catalog (Raw.Number 5) = None
  ∧ Raw.load_data_from_json (Raw.Parsed Sample.document_with_number)
    = inr (Raw.Number 5).
Proof. repeat split; vm_compute; reflexivity. Qed.

(** ** The data management page *)

Lemma progress_in_range data :
  1 ≤ total data → 0 ≤ labeled data →
  Pages.progress data
  = if decide (labeled data ≤ total data) then inr tt
    else inl Pages.StreamlitAPIException.
Proof.
  intros Htotal Hlabeled. unfold Pages.progress.
  rewrite bool_decide_eq_false_2 by lia.
  destruct (decide (labeled data ≤ total data)).
  - rewrite bool_decide_eq_true_2; [done | nia].
  - rewrite bool_decide_eq_false_2; [done | nia].
Qed.

(** The loop of progress bars ends well exactly when no entry has more
    labels than items. *)
Lemma progress_bars_in_range (entries : list (string * CategoryStats)) :
  Forall (λ entry, 1 ≤ total entry.2 ∧ 0 ≤ labeled entry.2) entries →
  Pages.progress_bars entries
  = if decide (Forall (λ entry, labeled entry.2 ≤ total entry.2) entries)
    then inr tt else inl Pages.StreamlitAPIException.
Proof.
  induction 1 as [|[c data] entries [Htotal Hlabeled] _ IH].
  - by rewrite decide_True.
  - cbn [Pages.progress_bars]. rewrite (progress_in_range data Htotal Hlabeled).
    destruct (decide (labeled data ≤ total data)) as [Hle|Hgt].
    + rewrite IH. apply decide_ext. rewrite Forall_cons. simpl. tauto.
    + rewrite decide_False; [done|].
      intros [Hle _]%Forall_cons. by apply Hgt.
Qed.

Lemma stats_entry_inv st c stats :
  (c, stats) ∈ map_to_list (get_category_stats st) →
  c ∈ get_categories st ∧ stats = category_entry st c
  ∧ 1 ≤ total stats ∧ 0 ≤ labeled stats.
Proof.
  rewrite elem_of_map_to_list, get_category_stats_lookup.
  destruct (decide (c ∈ get_categories st)) as [Hin|]; [|done].
  intros [= <-]. split; [done|]. split; [done|].
  apply elem_of_get_categories in Hin as (info & Hin & Hc).
  pose proof (filter_length_pos (λ info, info_category info = c)
                (infographics st) info Hin Hc).
  unfold category_entry; simpl. lia.
Qed.

Lemma stats_entries_bounds st :
  Forall (λ entry, 1 ≤ total entry.2 ∧ 0 ≤ labeled entry.2)
         (map_to_list (get_category_stats st)).
Proof.
  apply Forall_forall. intros [c stats] Hin.
  by destruct (stats_entry_inv st c stats Hin) as (_ & _ & ? & ?).
Qed.

(** No entry of the statistics has more labels than items exactly when no
    category of the catalog has. *)
Lemma stats_entries_within st :
  Forall (λ entry, labeled entry.2 ≤ total entry.2)
         (map_to_list (get_category_stats st))
  ↔ ∀ c, c ∈ get_categories st →
         count (λ label, label_category label = c) (labels st)
         ≤ count (λ info, info_category info = c) (infographics st).
Proof.
  rewrite Forall_forall. split.
  - intros Hall c Hc.
    apply (Hall (c, category_entry st c)).
    apply elem_of_map_to_list.
    by rewrite get_category_stats_lookup, decide_True.
  - intros Hall [c stats] Hin.
    destruct (stats_entry_inv st c stats Hin) as (Hc & -> & _).
    by apply Hall.
Qed.

Lemma sums_within (entries : list (string * CategoryStats)) :
  Forall (λ entry, labeled entry.2 ≤ total entry.2) entries →
  Pages.sum (labeled <$> entries.*2) ≤ Pages.sum (total <$> entries.*2).
Proof.
  rewrite !sum_foldr. induction 1 as [|entry entries Hle _ IH]; [done|].
  rewrite !fmap_cons. cbn [foldr]. lia.
Qed.

Lemma data_management_shown st overall :
  Pages.data_management (get_category_stats st) = inr overall →
  Forall (λ entry, labeled entry.2 ≤ total entry.2)
         (map_to_list (get_category_stats st))
  ∧ overall
    = {| Pages.shown_total := Pages.total_images (get_category_stats st);
         Pages.shown_labeled := Pages.total_labeled (get_category_stats st);
         Pages.shown_remaining := Pages.remaining (get_category_stats st) |}.
Proof.
  unfold Pages.data_management.
  rewrite (progress_bars_in_range _ (stats_entries_bounds st)).
  destruct (decide (Forall _ _)) as [Hall|]; [|done].
  by intros [= <-].
Qed.

(** X5: the data management page shows its "Overall Progress" exactly when
    no category of the catalog has more label records than items, and then
    "Total Images" is the number of items of the catalog; as soon as one
    category has more label records than items, a progress bar raises
    [StreamlitAPIException] and no figure is shown.  The division of a
    progress bar never raises. *)
Theorem data_management_shows_or_raises st :
  ((∀ c, c ∈ get_categories st →
         count (λ label, label_category label = c) (labels st)
         ≤ count (λ info, info_category info = c) (infographics st)) →
   ∃ overall,
     Pages.data_management (get_category_stats st) = inr overall
     ∧ Pages.shown_total overall = Z.of_nat (length (infographics st)))
  ∧ ((∃ c, c ∈ get_categories st
           ∧ count (λ info, info_category info = c) (infographics st)
             < count (λ label, label_category label = c) (labels st)) →
     Pages.data_management (get_category_stats st)
     = inl Pages.StreamlitAPIException).
Proof.
  unfold Pages.data_management.
  rewrite (progress_bars_in_range _ (stats_entries_bounds st)).
  split.
  - intros Hall%stats_entries_within. rewrite decide_True by done.
    eexists. split; [done|]. apply total_images_eq.
  - intros (c & Hc & Hover). rewrite decide_False; [done|].
    intros Hall.
    pose proof (proj1 (stats_entries_within st) Hall c Hc). lia.
Qed.

Lemma data_management_shows_or_raises_witness :
  (∃ overall,
     Pages.data_management (get_category_stats Sample.twice_A) = inr overall
     ∧ Pages.shown_total overall = 3)
  ∧ Pages.data_management (get_category_stats Sample.overlabeled)
    = inl Pages.StreamlitAPIException.
Proof.
  split.
  - apply (proj1 (data_management_shows_or_raises Sample.twice_A)).
    intros c Hc. apply elem_of_get_categories in Hc as (info & Hin & <-).
    simpl in Hin.
    repeat (apply elem_of_cons in Hin as [->|Hin]; [vm_compute; congruence|]).
    by apply not_elem_of_nil in Hin.
  - apply (proj2 (data_management_shows_or_raises Sample.overlabeled)).
    exists "Charts". split; [|vm_compute; reflexivity].
    apply elem_of_get_categories. exists Sample.item_C. split; [|reflexivity].
    apply list_elem_of_further, list_elem_of_further, list_elem_of_here.
Defined.

(** X6: whenever the data management page shows its "Overall Progress",
    "Labeled Images" is the number of labels whose category is a category
    of the catalog, it exceeds neither the number of labels nor "Total
    Images", and "Remaining" is their difference, which is not negative. *)
Theorem data_management_figures st overall :
  Pages.data_management (get_category_stats st) = inr overall →
  Pages.shown_labeled overall
  = count (λ label, label_category label ∈ get_categories st) (labels st)
  ∧ Pages.shown_labeled overall ≤ Z.of_nat (length (labels st))
  ∧ Pages.shown_labeled overall ≤ Pages.shown_total overall
  ∧ Pages.shown_remaining overall
    = Z.of_nat (length (infographics st)) - Pages.shown_labeled overall
  ∧ 0 ≤ Pages.shown_remaining overall.
Proof.
  intros [Hall ->]%data_management_shown. simpl.
  pose proof (sums_within _ Hall) as Hle.
  fold (Pages.total_labeled (get_category_stats st)) in Hle.
  fold (Pages.total_images (get_category_stats st)) in Hle.
  unfold Pages.remaining.
  rewrite total_images_eq, total_labeled_eq in *.
  repeat split; try lia.
  unfold count. apply inj_le, length_filter.
Qed.

Lemma data_management_figures_witness :
  Pages.data_management (get_category_stats Sample.twice_A)
  = inr {| Pages.shown_total := 3; Pages.shown_labeled := 2;
           Pages.shown_remaining := 1 |}
  ∧ Pages.shown_remaining
      {| Pages.shown_total := 3; Pages.shown_labeled := 2;
         Pages.shown_remaining := 1 |}
    = Z.of_nat (length (infographics Sample.twice_A))
      - Pages.shown_labeled
          {| Pages.shown_total := 3; Pages.shown_labeled := 2;
             Pages.shown_remaining := 1 |}.
Proof.
  split; [vm_compute; reflexivity|].
  apply (data_management_figures Sample.twice_A).
  vm_compute; reflexivity.
Defined.
